(** * Competency measures of student skills

    A shallow embedding of [modules/skill_map/competency.py] (Python 2) and
    the verification of its specification.

    Layout:
    - a small model of the Python values, exceptions and builtins that the
      module relies on;
    - the classes of the module, one Rocq [Module] per Python class, the
      methods keeping their Python names;
    - the event ingestors and the event listener;
    - the theorems. *)

From Stdlib Require Import ZArith Floats Ascii String.
From stdpp Require Import gmap strings list fin_maps pretty.

Set Warnings "-register-all".
Set Default Proof Using "Type".

Open Scope string_scope.
Open Scope list_scope.

(* ===================================================================== *)
(** ** Exceptions and results *)
(* ===================================================================== *)

(** The builtin exceptions that the module can raise or let through. *)
Inductive exn : Type :=
| AssertionError
| AttributeError
| IndexError
| KeyError
| NotImplementedError
| OverflowError
| TypeError
| ValueError
| ZeroDivisionError.

(** A Python expression either returns a value or raises. *)
Inductive result (A : Type) : Type :=
| Ok (a : A)
| Raise (e : exn).
Arguments Ok {A} a.
Arguments Raise {A} e.

Definition rbind {A B} (r : result A) (k : A → result B) : result B :=
  match r with
  | Ok a => k a
  | Raise e => Raise e
  end.

Notation "x <- e ;; k" := (rbind e (fun x => k))
  (at level 100, e at next level, right associativity).

(** A statement running against a mutable state [S]: the state reached is
    returned also when the statement raises, since a Python exception does
    not roll back the mutations made before it. *)
Definition M (S A : Type) : Type := S → S * result A.

Definition sret {S A} (a : A) : M S A := fun s => (s, Ok a).

Definition sraise {S A} (e : exn) : M S A := fun s => (s, Raise e).

Definition sbind {S A B} (c : M S A) (k : A → M S B) : M S B :=
  fun s =>
    match c s with
    | (s', Ok a) => k a s'
    | (s', Raise e) => (s', Raise e)
    end.

(** An expression that only reads the state. *)
Definition sread {S A} (f : S → result A) : M S A := fun s => (s, f s).

(** An atomic mutation: it either replaces the state or raises and
    leaves it as it was. *)
Definition supdate {S} (f : S → result S) : M S unit :=
  fun s =>
    match f s with
    | Ok s' => (s', Ok tt)
    | Raise e => (s, Raise e)
    end.

Notation "x <~ c ;; k" := (sbind c (fun x => k))
  (at level 100, c at next level, right associativity).
Notation "c ;;; k" := (sbind c (fun _ => k))
  (at level 100, right associativity).

(* ===================================================================== *)
(** ** Python values *)
(* ===================================================================== *)

(** The values that [transforms.loads] (a JSON decoder) produces and that
    the datastore documents are made of.  A [dict] is a finite map with
    string keys: a Python 2 dict has no insertion order. *)
Inductive pyval : Type :=
| PNone
| PBool (b : bool)
| PInt (z : Z)
| PFloat (f : float)
| PStr (s : string)
| PList (l : list pyval)
| PDict (d : gmap string pyval).

(** Truth value testing ([if x], [x or y], [not x]). *)
Definition py_truthy (v : pyval) : bool :=
  match v with
  | PNone => false
  | PBool b => b
  | PInt z => negb (z =? 0)%Z
  | PFloat f => negb (PrimFloat.eqb f 0%float)
  | PStr s => negb (String.eqb s "")
  | PList l => negb (Nat.eqb (length l) 0)
  | PDict d => negb (Nat.eqb (size d) 0)
  end.

(** [a or b]. *)
Definition py_or (a b : pyval) : pyval := if py_truthy a then a else b.

(** Conversion of a Python integer to a double, rounding to nearest even. *)
Definition float_of_Z (z : Z) : float :=
  SF2Prim (binary_normalize prec emax z 0 false).

(** As [float_of_Z], with the [OverflowError] of CPython ("int too large to
    convert to float"). *)
Definition int_to_float (z : Z) : result float :=
  let f := float_of_Z z in
  if PrimFloat.is_infinity f then Raise OverflowError else Ok f.

(** [v + 1]. *)
Definition py_add1 (v : pyval) : result pyval :=
  match v with
  | PBool b => Ok (PInt (Z.b2z b + 1))
  | PInt z => Ok (PInt (z + 1))
  | PFloat f => Ok (PFloat (f + 1)%float)
  | PNone | PStr _ | PList _ | PDict _ => Raise TypeError
  end.

(** [z >= c] for a Python integer [z] and a double [c]: the comparison is
    exact, the integer is not rounded to a double first. *)
Definition Z_ge_float (z : Z) (c : float) : bool :=
  match Prim2SF c with
  | S754_zero _ => (0 <=? z)%Z
  | S754_infinity s => s
  | S754_nan => false
  | S754_finite s m e =>
      let sm := if s then Z.neg m else Z.pos m in
      match e with
      | Z.neg p => (sm <=? z * 2 ^ Z.pos p)%Z
      | _ => (sm * 2 ^ e <=? z)%Z
      end
  end.

(** [v >= c] for a double [c], with the ordering of Python 2: numbers
    compare by value, [None] is below every number and every other object
    is above every number. *)
Definition py_ge_float (v : pyval) (c : float) : bool :=
  match v with
  | PNone => false
  | PBool b => Z_ge_float (Z.b2z b) c
  | PInt z => Z_ge_float z c
  | PFloat f => PrimFloat.leb c f
  | PStr _ | PList _ | PDict _ => true
  end.

(** [v == s] for a string constant [s]. *)
Definition py_eq_str (v : pyval) (s : string) : bool :=
  match v with
  | PStr t => String.eqb t s
  | _ => false
  end.

(** [isinstance(v, list)] and [isinstance(v, basestring)]. *)
Definition is_list (v : pyval) : bool :=
  match v with PList _ => true | _ => false end.

Definition is_basestring (v : pyval) : bool :=
  match v with PStr _ => true | _ => false end.

(** Whether a value can be the key of a dict. *)
Definition py_hashable (v : pyval) : bool :=
  match v with
  | PList _ | PDict _ => false
  | _ => true
  end.

(** The characters of a string, as one-character strings. *)
Fixpoint str_chars (s : string) : list pyval :=
  match s with
  | EmptyString => []
  | String a s' => PStr (String a EmptyString) :: str_chars s'
  end.

(** Indexing a sequence by a Python integer: negative indices count from
    the end, and an index out of range raises [IndexError]. *)
Definition seq_index {A} (l : list A) (i : Z) : result A :=
  let n := Z.of_nat (length l) in
  let j := if (i <? 0)%Z then (i + n)%Z else i in
  if (j <? 0)%Z then Raise IndexError
  else match l !! Z.to_nat j with
       | Some x => Ok x
       | None => Raise IndexError
       end.

(** [v[k]]. *)
Definition py_getitem (v k : pyval) : result pyval :=
  match v with
  | PDict d =>
      match k with
      | PStr s => match d !! s with Some x => Ok x | None => Raise KeyError end
      | PList _ | PDict _ => Raise TypeError
      | _ => Raise KeyError
      end
  | PList l =>
      match k with
      | PInt i => seq_index l i
      | PBool b => seq_index l (Z.b2z b)
      | _ => Raise TypeError
      end
  | PStr s =>
      match k with
      | PInt i => seq_index (str_chars s) i
      | PBool b => seq_index (str_chars s) (Z.b2z b)
      | _ => Raise TypeError
      end
  | PNone | PBool _ | PInt _ | PFloat _ => Raise TypeError
  end.

(** The elements that [for x in v] visits.  A dict yields its keys, in the
    order of the map's canonical listing (Python 2 fixes no order). *)
Definition py_iter (v : pyval) : result (list pyval) :=
  match v with
  | PList l => Ok l
  | PStr s => Ok (str_chars s)
  | PDict d => Ok (PStr <$> (map_to_list d).*1)
  | PNone | PBool _ | PInt _ | PFloat _ => Raise TypeError
  end.

(** [zip(a, b)]. *)
Definition py_zip (a b : pyval) : result (list (pyval * pyval)) :=
  la <- py_iter a ;;
  lb <- py_iter b ;;
  Ok (zip la lb).

(** The builtins whose full definition is outside the scope of this model.
    The development holds for every implementation of them that treats
    strings as CPython does. *)
Class PyBuiltins : Type := {
  (** ['%s' % v] *)
  py_str : pyval → string;
  py_str_PStr : ∀ s, py_str (PStr s) = s;
  (** [float(s)] for a string [s] *)
  float_of_str : string → result float;
  (** whether two hashable values are the same dict key *)
  py_key_eqb : pyval → pyval → bool;
}.

(** [float(v)]. *)
Definition py_float {builtins : PyBuiltins} (v : pyval) : result float :=
  match v with
  | PBool b => Ok (float_of_Z (Z.b2z b))
  | PInt z => int_to_float z
  | PFloat f => Ok f
  | PStr s => float_of_str s
  | PNone | PList _ | PDict _ => Raise TypeError
  end.

(** [f / v] for a float [f]. *)
Definition py_float_div (f : float) (v : pyval) : result float :=
  match v with
  | PBool b => if b then Ok (f / 1)%float else Raise ZeroDivisionError
  | PInt z =>
      g <- int_to_float z ;;
      if (z =? 0)%Z then Raise ZeroDivisionError else Ok (f / g)%float
  | PFloat g =>
      if PrimFloat.eqb g 0%float then Raise ZeroDivisionError
      else Ok (f / g)%float
  | PNone | PStr _ | PList _ | PDict _ => Raise TypeError
  end.

(* ===================================================================== *)
(** ** Strings *)
(* ===================================================================== *)

(** [c in s] for a character [c]. *)
Fixpoint str_contains (c : ascii) (s : string) : bool :=
  match s with
  | EmptyString => false
  | String a s' => if Ascii.eqb a c then true else str_contains c s'
  end.

(** The text before and after the first occurrence of [c] in [s]. *)
Fixpoint str_break (c : ascii) (s : string) : option (string * string) :=
  match s with
  | EmptyString => None
  | String a s' =>
      if Ascii.eqb a c then Some (EmptyString, s')
      else match str_break c s' with
           | Some (l, r) => Some (String a l, r)
           | None => None
           end
  end.

(** [s.split(c, maxsplit)] for a one-character separator. *)
Fixpoint str_split (c : ascii) (maxsplit : nat) (s : string) : list string :=
  match maxsplit with
  | O => [s]
  | S m =>
      match str_break c s with
      | Some (l, r) => l :: str_split c m r
      | None => [s]
      end
  end.

(** The separator of the composite key. *)
Definition SEP : ascii := ":"%char.

(* ===================================================================== *)
(** ** The measure documents and their store *)
(* ===================================================================== *)

(** DTO to represent a competency measure. *)
Module CompetencyMeasureDto.

Record t : Type := __init__ { _id : string; dict : gmap string pyval }.

Definition id (self : t) : string := _id self.

(** [self.dict.get('data', {}).get(property_name)] *)
Definition get_data (property_name : string) (self : t) : result pyval :=
  match dict self !! "data" with
  | None => Ok PNone
  | Some (PDict data) => Ok (default PNone (data !! property_name))
  | Some _ => Raise AttributeError
  end.

(** [self.dict.setdefault('data', {})[property_name] = property_value] *)
Definition set_data (property_name : string) (property_value : pyval)
    (self : t) : result t :=
  match dict self !! "data" with
  | None =>
      Ok (__init__ (_id self)
            (<["data" := PDict {[property_name := property_value]}]>
               (dict self)))
  | Some (PDict data) =>
      Ok (__init__ (_id self)
            (<["data" := PDict (<[property_name := property_value]> data)]>
               (dict self)))
  | Some _ => Raise TypeError
  end.

(** [self.dict.setdefault('events', []).append(event)] *)
Definition append_event (event : pyval) (self : t) : result t :=
  match dict self !! "events" with
  | None =>
      Ok (__init__ (_id self) (<["events" := PList [event]]> (dict self)))
  | Some (PList events) =>
      Ok (__init__ (_id self)
            (<["events" := PList (events ++ [event])]> (dict self)))
  | Some _ => Raise AttributeError
  end.

(** [self.dict.get('events', [])] *)
Definition get_events_list (self : t) : pyval :=
  default (PList []) (dict self !! "events").

End CompetencyMeasureDto.

Abbreviation Dto := CompetencyMeasureDto.t.

(** The optional arguments of [update]; each defaults to [None]. *)
Record kwargs : Type := {
  unit_id : pyval;
  lesson_id : pyval;
  block_id : pyval;
  timestamp : pyval;
}.

Definition no_kwargs : kwargs :=
  {| unit_id := PNone; lesson_id := PNone; block_id := PNone;
     timestamp := PNone |}.

(** An instance of [BaseCompetencyMeasure] or of a subclass: its fields. *)
Record measure : Type := Measure {
  dto : option Dto;
  user_id : string;
}.

(** A subclass of [BaseCompetencyMeasure]: its name and the two methods
    that subclasses override. *)
Record MeasureClass : Type := {
  __name__ : string;
  update : pyval → kwargs → M measure unit;
  get_skill_score : measure → result float;
}.

(** The calls that reach the datastore, in the order they are made. *)
Inductive io : Type :=
| DaoLoad (key : string)
| DaoSave (key : string)
| QuestionLoad (quid : pyval).

(** The state shared by all the calls of the module: the stored measure
    documents by key name, the class attribute [Registry._registry], and
    the log of the datastore calls. *)
Record world : Type := World {
  docs : gmap string (gmap string pyval);
  registry : list MeasureClass;
  trace : list io;
}.

Definition log (e : io) : M world unit :=
  fun w => (World (docs w) (registry w) (trace w ++ [e]), Ok tt).

(** Modelled from the spec: [CompetencyMeasureDao] inherits [load] and
    [save] from [models.BaseJsonDao], which is not in this module.  They
    follow the contract of the Measure State Store: [get(key)] returns the
    document stored under the key or nothing, and [put(key, document)]
    stores the document under the key. *)
Module CompetencyMeasureDao.

Definition load (key : string) : M world (option Dto) :=
  log (DaoLoad key) ;;;
  sread (fun w => Ok (CompetencyMeasureDto.__init__ key <$> docs w !! key)).

Definition save (d : Dto) : M world unit :=
  log (DaoSave (CompetencyMeasureDto.id d)) ;;;
  fun w =>
    (World (<[CompetencyMeasureDto.id d := CompetencyMeasureDto.dict d]>
              (docs w))
           (registry w) (trace w),
     Ok tt).

End CompetencyMeasureDao.

(** Holds all the competency scores for a given student and measure. *)
Module CompetencyMeasureEntity.

(** A datastore key: the kind of the entity and its key name. *)
Record Key : Type := from_path { Key_kind : string; name : string }.

Definition kind : string := "CompetencyMeasureEntity".

Definition create_key_name {builtins : PyBuiltins}
    (user_id skill_id class_name : pyval) : result string :=
  if str_contains SEP
       (py_str user_id +:+ py_str skill_id +:+ py_str class_name)
  then Raise AssertionError
  else Ok (py_str user_id +:+ ":" +:+ py_str skill_id +:+ ":"
           +:+ py_str class_name).

(** [user_id, skill_id, class_name = name.split(':', 2)] *)
Definition split_key_name (name : string)
    : result (string * string * string) :=
  match str_split SEP 2 name with
  | [user_id; skill_id; class_name] => Ok (user_id, skill_id, class_name)
  | _ => Raise ValueError
  end.

Definition safe_key {builtins : PyBuiltins} (db_key : Key)
    (transform_fn : string → result string) : result Key :=
  parts <- split_key_name (name db_key) ;;
  let '(user_id, skill_id, class_name) := parts in
  user_id' <- transform_fn user_id ;;
  key_name <- create_key_name (PStr user_id') (PStr skill_id)
                (PStr class_name) ;;
  Ok (from_path kind key_name).

End CompetencyMeasureEntity.

(* ===================================================================== *)
(** ** The competency measures *)
(* ===================================================================== *)

(** Lifting a pure expression into a statement. *)
Definition lift {S A} (r : result A) : M S A := fun s => (s, r).

(** [assert self.dto is not None] *)
Definition assert_dto_is_not_None : M measure unit :=
  sread (fun self =>
    match dto self with
    | Some _ => Ok tt
    | None => Raise AssertionError
    end).

(** [self.dto.f(...)] for a method [f] of the DTO that only reads it: the
    attribute access raises on [None]. *)
Definition dto_call {A} (f : Dto → result A) : M measure A :=
  sread (fun self =>
    match dto self with
    | Some d => f d
    | None => Raise AttributeError
    end).

(** [self.dto.f(...)] for a method [f] of the DTO that mutates it. *)
Definition dto_mutate (f : Dto → result Dto) : M measure unit :=
  supdate (fun self =>
    match dto self with
    | Some d => d' <- f d ;; Ok (Measure (Some d') (user_id self))
    | None => Raise AttributeError
    end).

(** Base class to model the behavior of a competency measure algorithm. *)
Module BaseCompetencyMeasure.

Definition CORRECT_INCORRECT_CUTOFF : float := 0.5%float.

Definition __init__ (user_id : string) : measure :=
  {| dto := None; user_id := user_id |}.

(** [load] of an instance of class [cls].  The instance is returned as it
    is after the call; when the call raises it is left as it was. *)
Definition load {builtins : PyBuiltins} (cls : MeasureClass) (skill_id : pyval)
    (self : measure) : M world measure :=
  resource_key <~ lift (CompetencyMeasureEntity.create_key_name
                          (PStr (user_id self)) skill_id
                          (PStr (__name__ cls))) ;;
  loaded <~ CompetencyMeasureDao.load resource_key ;;
  sret (Measure
          (Some (match loaded with
                 | Some d => d
                 | None => CompetencyMeasureDto.__init__ resource_key ∅
                 end))
          (user_id self)).

(** [save]; the instance is returned as it is after the call, and it is
    left as it was when the call raises. *)
Definition save (self : measure) : M world measure :=
  match dto self with
  | None => sraise AssertionError
  | Some d =>
      CompetencyMeasureDao.save d ;;;
      sret (Measure None (user_id self))
  end.

(** The event record that [update] logs. *)
Definition event_record (normalized_score : pyval) (kw : kwargs) : pyval :=
  PDict (<["normalized_score" := normalized_score]>
        (<["unit_id" := unit_id kw]>
        (<["lesson_id" := lesson_id kw]>
        (<["block_id" := block_id kw]>
        (<["timestamp" := timestamp kw]> ∅))))).

Definition update (normalized_score : pyval) (kw : kwargs) : M measure unit :=
  assert_dto_is_not_None ;;;
  dto_mutate
    (CompetencyMeasureDto.append_event (event_record normalized_score kw)).

Definition get_skill_score (self : measure) : result float :=
  Raise NotImplementedError.

Definition get_events_list (self : measure) : result pyval :=
  match dto self with
  | None => Raise AssertionError
  | Some d => Ok (CompetencyMeasureDto.get_events_list d)
  end.

Definition class : MeasureClass :=
  Build_MeasureClass "BaseCompetencyMeasure" update get_skill_score.

End BaseCompetencyMeasure.

(** Measure of competency based on the cumulative percentage correct. *)
Module SuccessRateCompetencyMeasure.

Definition CORRECT_KEY : string := "correct".
Definition COUNT_KEY : string := "count".

Definition update (normalized_score : pyval) (kw : kwargs) : M measure unit :=
  BaseCompetencyMeasure.update normalized_score kw ;;;
  count <~ dto_call (CompetencyMeasureDto.get_data COUNT_KEY) ;;
  let count := py_or count (PInt 0) in
  count' <~ lift (py_add1 count) ;;
  dto_mutate (CompetencyMeasureDto.set_data COUNT_KEY count') ;;;
  if py_ge_float normalized_score
       BaseCompetencyMeasure.CORRECT_INCORRECT_CUTOFF
  then
    correct <~ dto_call (CompetencyMeasureDto.get_data CORRECT_KEY) ;;
    let correct := py_or correct (PInt 0) in
    correct' <~ lift (py_add1 correct) ;;
    dto_mutate (CompetencyMeasureDto.set_data CORRECT_KEY correct')
  else sret tt.

Definition get_skill_score {builtins : PyBuiltins} (self : measure)
    : result float :=
  match dto self with
  | None => Raise AttributeError
  | Some d =>
      correct <- CompetencyMeasureDto.get_data CORRECT_KEY d ;;
      let correct := py_or correct (PInt 0) in
      count <- CompetencyMeasureDto.get_data COUNT_KEY d ;;
      let count := py_or count (PInt 0) in
      if py_truthy count
      then f <- py_float correct ;; py_float_div f count
      else Ok 0%float
  end.

Definition class {builtins : PyBuiltins} : MeasureClass :=
  Build_MeasureClass "SuccessRateCompetencyMeasure" update get_skill_score.

End SuccessRateCompetencyMeasure.

(** The registry of the measure classes and the updater it builds. *)
Module Registry.

(** An [_Updater]: its list of measures, each with its class. *)
Definition _Updater : Type := list (MeasureClass * measure).

(** [_Updater.update]: the state is the list of the measures. *)
Fixpoint _Updater_update (normalized_score : pyval)
    (competency_measures : _Updater) : _Updater * result unit :=
  match competency_measures with
  | [] => ([], Ok tt)
  | (cls, competency_measure) :: rest =>
      match update cls normalized_score no_kwargs competency_measure with
      | (m', Ok _) =>
          let '(rest', r) := _Updater_update normalized_score rest in
          ((cls, m') :: rest', r)
      | (m', Raise e) => ((cls, m') :: rest, Raise e)
      end
  end.

(** [_Updater.save]: the measures are returned as they are after the call.
    The documents saved before a [save] that raises stay saved. *)
Fixpoint _Updater_save (competency_measures : _Updater) : M world _Updater :=
  match competency_measures with
  | [] => sret []
  | (cls, competency_measure) :: rest =>
      m' <~ BaseCompetencyMeasure.save competency_measure ;;
      rest' <~ _Updater_save rest ;;
      sret ((cls, m') :: rest')
  end.


Section get_updater.
Context {builtins : PyBuiltins}.

(** The loop of [get_updater] over the registered classes. *)
Fixpoint load_measures (user_id : string) (skill_id : pyval)
    (classes : list MeasureClass) (competency_measures : _Updater)
    : M world _Updater :=
  match classes with
  | [] => sret competency_measures
  | competency_measure_class :: rest =>
      let a_measure := BaseCompetencyMeasure.__init__ user_id in
      a_measure <~ BaseCompetencyMeasure.load competency_measure_class
                     skill_id a_measure ;;
      load_measures user_id skill_id rest
        (competency_measures ++ [(competency_measure_class, a_measure)])
  end.

Definition get_updater (user_id : string) (skill_id : pyval)
    : M world _Updater :=
  fun w => load_measures user_id skill_id (registry w) [] w.

End get_updater.

End Registry.

(* ===================================================================== *)
(** ** The event ingestors and the event listener *)
(* ===================================================================== *)

Record QuestionScore : Type := { quid : pyval; score : pyval }.

Definition _get_questions_scores_from_single_item (data : pyval)
    : result (list QuestionScore) :=
  type <- py_getitem data (PStr "type") ;;
  if py_eq_str type "QuestionGroup" then
    quids <- py_getitem data (PStr "quids") ;;
    individualScores <- py_getitem data (PStr "individualScores") ;;
    pairs <- py_zip quids individualScores ;;
    Ok (map (fun p => Build_QuestionScore p.1 p.2) pairs)
  else
    a_quid <- py_getitem data (PStr "quid") ;;
    a_score <- py_getitem data (PStr "score") ;;
    Ok [Build_QuestionScore a_quid a_score].

(** The loop of [__get_questions_scores_from_many_items] over the instance
    ids. *)
Fixpoint many_items_loop (quids scores : pyval) (instanceids : list pyval)
    (question_scores : list QuestionScore) : result (list QuestionScore) :=
  match instanceids with
  | [] => Ok question_scores
  | instanceid :: rest =>
      a_quid <- py_getitem quids instanceid ;;
      a_score <- py_getitem scores instanceid ;;
      if is_basestring a_quid then
        many_items_loop quids scores rest
          (question_scores ++ [Build_QuestionScore a_quid a_score])
      else
        pairs <- py_zip a_quid a_score ;;
        many_items_loop quids scores rest
          (question_scores
             ++ map (fun p => Build_QuestionScore p.1 p.2) pairs)
  end.

Definition _get_questions_scores_from_many_items (data : pyval)
    : result (list QuestionScore) :=
  if is_list data then Ok []
  else
    quids <- py_getitem data (PStr "quids") ;;
    scores <- py_getitem data (PStr "individualScores") ;;
    instanceids <- py_iter quids ;;
    many_items_loop quids scores instanceids [].

(** A question as [models.QuestionDAO.load] returns it: its [dict]. *)
Record QuestionDto : Type := { question_dict : gmap string pyval }.

(** A user as the event delivery passes it: what [user.user_id()] returns. *)
Record User : Type := { User_user_id : string }.

(** What the listener uses of the other modules of the application: the
    JSON decoder [transforms.loads], the lookup [models.QuestionDAO.load]
    with [None] for an absent question, and [constants.SKILLS_KEY]. *)
Class Collaborators : Type := {
  loads : string → result pyval;
  QuestionDAO_load : pyval → result (option QuestionDto);
  SKILLS_KEY : string;
}.

Section record_event_listener.
Context {builtins : PyBuiltins} {collaborators : Collaborators}.

(** [collections.defaultdict(list)]: the keys in the order of their first
    insertion, each with its list. *)
Definition defaultdict : Type := list (pyval * list pyval).

(** [d[k].append(v)] *)
Fixpoint defaultdict_append (k v : pyval) (d : defaultdict) : defaultdict :=
  match d with
  | [] => [(k, [v])]
  | (k', vs) :: d' =>
      if py_key_eqb k' k then (k', vs ++ [v]) :: d'
      else (k', vs) :: defaultdict_append k v d'
  end.

(** The inner loop of the grouping: one score appended under each skill of
    the question. *)
Fixpoint append_score (skill_ids : list pyval) (a_score : pyval)
    (scores_by_skill : defaultdict) : result defaultdict :=
  match skill_ids with
  | [] => Ok scores_by_skill
  | skill_id :: rest =>
      if py_hashable skill_id
      then append_score rest a_score
             (defaultdict_append skill_id a_score scores_by_skill)
      else Raise TypeError
  end.

(** The first loop of the listener: the scores grouped by skill. *)
Fixpoint group_scores (question_scores : list QuestionScore)
    (scores_by_skill : defaultdict) : M world defaultdict :=
  match question_scores with
  | [] => sret scores_by_skill
  | question_score :: rest =>
      log (QuestionLoad (quid question_score)) ;;;
      question <~ lift (QuestionDAO_load (quid question_score)) ;;
      match question with
      | None => sraise AttributeError
      | Some question =>
          skill_ids <~ lift (py_iter (default (PList [])
                               (question_dict question !! SKILLS_KEY))) ;;
          scores_by_skill <~ lift (append_score skill_ids
                                     (score question_score)
                                     scores_by_skill) ;;
          group_scores rest scores_by_skill
      end
  end.

(** [for score in scores: updater.update(score)] *)
Fixpoint update_all (scores : list pyval) (updater : Registry._Updater)
    : result Registry._Updater :=
  match scores with
  | [] => Ok updater
  | a_score :: rest =>
      match Registry._Updater_update a_score updater with
      | (updater', Ok _) => update_all rest updater'
      | (_, Raise e) => Raise e
      end
  end.

(** The second loop of the listener: one updater per skill. *)
Fixpoint record_scores (user : User) (items : defaultdict) : M world unit :=
  match items with
  | [] => sret tt
  | (skill_id, scores) :: rest =>
      updater <~ Registry.get_updater (User_user_id user) skill_id ;;
      updater <~ lift (update_all scores updater) ;;
      Registry._Updater_save updater ;;;
      record_scores user rest
  end.

(** The part of the listener after the dispatch on the source tag. *)
Definition record_question_scores (user : User)
    (question_scores : list QuestionScore) : M world unit :=
  scores_by_skill <~ group_scores question_scores [] ;;
  record_scores user scores_by_skill.

Definition record_event_listener (source : string) (user : User)
    (data : string) : M world unit :=
  if String.eqb source "tag-assessment" then
    data <~ lift (loads data) ;;
    question_scores <~ lift (_get_questions_scores_from_single_item data) ;;
    record_question_scores user question_scores
  else if String.eqb source "attempt-lesson" then
    data <~ lift (loads data) ;;
    question_scores <~ lift (_get_questions_scores_from_many_items data) ;;
    record_question_scores user question_scores
  else if String.eqb source "submit-assessment" then
    data <~ lift (loads data) ;;
    data <~ lift (py_getitem data (PStr "values")) ;;
    question_scores <~ lift (_get_questions_scores_from_many_items data) ;;
    record_question_scores user question_scores
  else sret tt.

End record_event_listener.


(* ===================================================================== *)
(** ** An implementation of the builtins for the examples *)
(* ===================================================================== *)

Definition sample_py_str (v : pyval) : string :=
  match v with
  | PNone => "None"
  | PBool b => if b then "True" else "False"
  | PInt z => pretty z
  | PStr s => s
  | PFloat _ => "<float>"
  | PList _ => "<list>"
  | PDict _ => "<dict>"
  end.

Definition sample_key_eqb (a b : pyval) : bool :=
  match a, b with
  | PNone, PNone => true
  | PBool x, PBool y => Bool.eqb x y
  | PInt x, PInt y => (x =? y)%Z
  | PBool x, PInt y | PInt y, PBool x => (Z.b2z x =? y)%Z
  | PStr x, PStr y => String.eqb x y
  | _, _ => false
  end.

(** Exact on [None], booleans, integers and strings, which is all that the
    examples below use; a placeholder elsewhere. *)
Definition sample_builtins : PyBuiltins :=
  {| py_str := sample_py_str;
     py_str_PStr := fun s => eq_refl;
     float_of_str := fun _ => Raise ValueError;
     py_key_eqb := sample_key_eqb |}.

(** A text in double quotes. *)
Definition quoted (s : string) : string :=
  String "034"%char s +:+ String "034"%char EmptyString.

(** The payload of a "Check Answer" event on a question: a JSON object
    with the keys type, quid and score. *)
Definition sample_item_text (a_quid a_score : string) : string :=
  "{" +:+ quoted "type" +:+ ": " +:+ quoted "SaQuestion" +:+ ", "
  +:+ quoted "quid" +:+ ": " +:+ quoted a_quid +:+ ", "
  +:+ quoted "score" +:+ ": " +:+ a_score +:+ "}".

Definition sample_item (a_quid : string) (a_score : pyval)
    : gmap string pyval :=
  <["type" := PStr "SaQuestion"]>
    (<["quid" := PStr a_quid]> (<["score" := a_score]> ∅)).

(** A decoder that knows three texts and rejects every other: the empty
    list, an answer to the question [q1] and an answer to the question
    [q9]. *)
Definition sample_loads (data : string) : result pyval :=
  if String.eqb data "[]" then Ok (PList [])
  else if String.eqb data (sample_item_text "q1" "0.75")
  then Ok (PDict (sample_item "q1" (PFloat 0.75)))
  else if String.eqb data (sample_item_text "q9" "1")
  then Ok (PDict (sample_item "q9" (PInt 1)))
  else Raise ValueError.

(** The decoder above and a question store that holds the one question
    [q1], tagged with the skill 7. *)
Definition sample_collaborators : Collaborators :=
  {| loads := sample_loads;
     QuestionDAO_load := fun a_quid =>
       if py_eq_str a_quid "q1"
       then Ok (Some {| question_dict := {["skills" := PList [PInt 7]]} |})
       else Ok None;
     SKILLS_KEY := "skills" |}.

(** An empty store with the success rate measure registered. *)
Definition sample_world : world :=
  World ∅
    [SuccessRateCompetencyMeasure.class (builtins := sample_builtins)] [].

(** Three observations, two of them at or above the cutoff. *)
Definition sample_calls : list (pyval * kwargs) :=
  [(PFloat 0.75, no_kwargs); (PFloat 0.25, no_kwargs);
   (PFloat 0.5, no_kwargs)].

(** A grouped single item with three sub-questions. *)
Definition sample_group : gmap string pyval :=
  <["type" := PStr "QuestionGroup"]>
    (<["quids" := PList [PStr "q1"; PStr "q2"; PStr "q3"]]>
       (<["individualScores" := PList [PInt 1; PInt 0; PFloat 0.5]]> ∅)).

(* ===================================================================== *)
(** ** What the statements observe *)
(* ===================================================================== *)

(** [n] calls of [update] on an instance of class [cls], each with its score
    and its optional arguments. *)
Fixpoint updates (cls : MeasureClass) (calls : list (pyval * kwargs))
    : M measure unit :=
  match calls with
  | [] => sret tt
  | (normalized_score, kw) :: rest =>
      update cls normalized_score kw ;;; updates cls rest
  end.

(** The event sequence of a measure document: empty when the document has
    no ['events'] entry, undefined when the entry is not a list. *)
Definition events_of (doc : gmap string pyval) : option (list pyval) :=
  match doc !! "events" with
  | None => Some []
  | Some (PList events) => Some events
  | Some _ => None
  end.

(** The algorithm-private mapping of a measure document: empty when the
    document has no ['data'] entry, undefined when the entry is not a
    dict. *)
Definition data_of (doc : gmap string pyval)
    : option (gmap string pyval) :=
  match doc !! "data" with
  | None => Some ∅
  | Some (PDict data) => Some data
  | Some _ => None
  end.

(** An integer counter of the data mapping: zero when it is missing. *)
Definition counter (key : string) (data : gmap string pyval) : option Z :=
  match data !! key with
  | None => Some 0%Z
  | Some (PInt z) => Some z
  | Some _ => None
  end.

(** The state of a well-formed success rate document: its events and its
    two counters [correct] and [count]. *)
Definition success_rate_state (doc : gmap string pyval)
    : option (list pyval * Z * Z) :=
  events ← events_of doc;
  data ← data_of doc;
  correct ← counter SuccessRateCompetencyMeasure.CORRECT_KEY data;
  count ← counter SuccessRateCompetencyMeasure.COUNT_KEY data;
  Some (events, correct, count).

(** Whether an observation is judged correct. *)
Definition is_correct (normalized_score : pyval) : bool :=
  py_ge_float normalized_score BaseCompetencyMeasure.CORRECT_INCORRECT_CUTOFF.

(** The number of the observations judged correct. *)
Definition count_correct (calls : list (pyval * kwargs)) : Z :=
  Z.of_nat (length (filter (fun call => is_correct call.1 = true) calls)).

(** [float(correct) / count] for a non-zero [count]. *)
Definition success_rate (correct count : Z) : result float :=
  f <- int_to_float correct ;;
  g <- int_to_float count ;;
  Ok (f / g)%float.

(** The update that the specification words: the data summary first, the
    raw event after it. *)
Definition update_summary (normalized_score : pyval) : M measure unit :=
  count <~ dto_call (CompetencyMeasureDto.get_data
                       SuccessRateCompetencyMeasure.COUNT_KEY) ;;
  let count := py_or count (PInt 0) in
  count' <~ lift (py_add1 count) ;;
  dto_mutate (CompetencyMeasureDto.set_data
                SuccessRateCompetencyMeasure.COUNT_KEY count') ;;;
  if is_correct normalized_score
  then
    correct <~ dto_call (CompetencyMeasureDto.get_data
                           SuccessRateCompetencyMeasure.CORRECT_KEY) ;;
    let correct := py_or correct (PInt 0) in
    correct' <~ lift (py_add1 correct) ;;
    dto_mutate (CompetencyMeasureDto.set_data
                  SuccessRateCompetencyMeasure.CORRECT_KEY correct')
  else sret tt.

Definition update_summary_then_log (normalized_score : pyval) (kw : kwargs)
    : M measure unit :=
  update_summary normalized_score ;;;
  BaseCompetencyMeasure.update normalized_score kw.


(** The question-score pairs that the listener extracts from an event:
    nothing for an unrecognized source tag. *)
Definition question_scores_of_event {collaborators : Collaborators}
    (source data : string) : option (result (list QuestionScore)) :=
  if String.eqb source "tag-assessment" then
    Some (decoded <- loads data ;;
          _get_questions_scores_from_single_item decoded)
  else if String.eqb source "attempt-lesson" then
    Some (decoded <- loads data ;;
          _get_questions_scores_from_many_items decoded)
  else if String.eqb source "submit-assessment" then
    Some (decoded <- loads data ;;
          values <- py_getitem decoded (PStr "values") ;;
          _get_questions_scores_from_many_items values)
  else None.

(** A success rate document whose counters agree with its event log: one
    event per counted observation, and no more correct observations than
    observations. *)
Definition consistent (doc : gmap string pyval) : Prop :=
  ∃ events correct count,
    success_rate_state doc = Some (events, correct, count)
    ∧ count = Z.of_nat (length events)
    ∧ (0 ≤ correct ≤ count)%Z.

(** A class whose [update] leaves the key of the document alone. *)
Definition keeps_id (cls : MeasureClass) : Prop :=
  ∀ normalized_score kw self self' r,
    update cls normalized_score kw self = (self', r) →
    CompetencyMeasureDto._id <$> dto self'
    = CompetencyMeasureDto._id <$> dto self.

(** A key name built from three components. *)
Definition join_key (user_id skill_id class_name : string) : string :=
  user_id +:+ ":" +:+ skill_id +:+ ":" +:+ class_name.


(** The number of the occurrences of a character in a string. *)
Fixpoint str_count (c : ascii) (s : string) : nat :=
  match s with
  | EmptyString => 0
  | String a s' => (if Ascii.eqb a c then 1 else 0) + str_count c s'
  end.


(** The pairs that one instance id of a multi-item payload contributes:
    one pair for a question, the zipped ids and scores for a group. *)
Definition instance_pairs (a_quid a_score : pyval)
    : result (list QuestionScore) :=
  if is_basestring a_quid then Ok [Build_QuestionScore a_quid a_score]
  else
    pairs <- py_zip a_quid a_score ;;
    Ok (map (fun p => Build_QuestionScore p.1 p.2) pairs).


(** The measure that [load] leaves for a class: the stored document of the
    key, or an empty one. *)
Definition loaded (w : world) (uid key : string) : measure :=
  Measure (Some (CompetencyMeasureDto.__init__ key
                   (default ∅ (docs w !! key)))) uid.

(** The store after the documents [ds] were saved one after the other. *)
Definition saved (ds : list Dto) (w : world) : world :=
  World
    (foldl (fun m d =>
              <[CompetencyMeasureDto._id d := CompetencyMeasureDto.dict d]> m)
       (docs w) ds)
    (registry w)
    (trace w ++ map (fun d => DaoSave (CompetencyMeasureDto._id d)) ds).



(** The later state of the module has the registry of the earlier one,
    every document key of the earlier one, and a log that continues the
    earlier one. *)
Definition extends (w w' : world) : Prop :=
  registry w' = registry w
  ∧ dom (docs w) ⊆ dom (docs w')
  ∧ trace w `prefix_of` trace w'.

(** Between the two states, every document whose key does not start with
    the given user id and a separator is as it was, stored or absent. *)
Definition only_user_changed (uid : string) (w w' : world) : Prop :=
  ∀ key, (∀ rest, key ≠ uid +:+ ":" +:+ rest) →
    docs w' !! key = docs w !! key.


(** The measures of an updater for a user: each is of a class of the given
    list, and the key of the document it holds, if any, starts with the
    user id and a separator. *)
Definition updater_of (uid : string) (classes : list MeasureClass)
    (updater : Registry._Updater) : Prop :=
  Forall (fun cm =>
            cm.1 ∈ classes
            ∧ ∀ d, dto cm.2 = Some d →
                ∃ rest, CompetencyMeasureDto._id d = uid +:+ ":" +:+ rest)
    updater.


(** Further values for the examples. *)
Definition sample_dto : Dto := CompetencyMeasureDto.__init__ "k" ∅.

(** Two measures of the user [ann] for the skill 7, loaded from the empty
    store. *)
Definition sample_updater : Registry._Updater :=
  [(BaseCompetencyMeasure.class,
    loaded sample_world "ann" "ann:7:BaseCompetencyMeasure");
   (SuccessRateCompetencyMeasure.class (builtins := sample_builtins),
    loaded sample_world "ann" "ann:7:SuccessRateCompetencyMeasure")].

(** A store that holds a document with no list of events. *)
Definition sample_bad_world : world :=
  World {["ann:7:SuccessRateCompetencyMeasure" := {["events" := PNone]}]}
    [SuccessRateCompetencyMeasure.class (builtins := sample_builtins)] [].

(** A graded lesson with two questions. *)
Definition sample_quids : gmap string pyval :=
  <["i1" := PStr "q1"]> (<["i2" := PStr "q2"]> ∅).

Definition sample_scores : gmap string pyval :=
  <["i1" := PInt 1]> (<["i2" := PFloat 0.25]> ∅).

(** An empty store with the base class and the success rate measure
    registered. *)
Definition sample_world2 : world :=
  World ∅
    [BaseCompetencyMeasure.class;
     SuccessRateCompetencyMeasure.class (builtins := sample_builtins)] [].

(** A transformation of user ids, as the removal of a user applies it. *)
Definition sample_transform (user_id : string) : result string :=
  Ok ("anon-" +:+ user_id).

(* ===================================================================== *)
(** * Theorems *)
(* ===================================================================== *)

(** Unfolding the statements down to matches on their results. *)
Ltac unfold_M :=
  unfold sbind, sread, supdate, sret, sraise, lift, log in *.

(** ** Strings *)

Lemma str_contains_app c a b :
  str_contains c (a +:+ b) = str_contains c a || str_contains c b.
Proof.
  induction a as [|x a IH]; simpl; [done|].
  destruct (Ascii.eqb x c); [done|]. apply IH.
Qed.

Lemma str_break_sep c a b :
  str_contains c a = false → str_break c (a +:+ String c b) = Some (a, b).
Proof.
  induction a as [|x a IH]; simpl.
  - intros _. by rewrite Ascii.eqb_refl.
  - destruct (Ascii.eqb x c); [done|]. intros Ha. by rewrite (IH Ha).
Qed.

(** ** The composite key *)

Section key_name.
Context {builtins : PyBuiltins}.
Import CompetencyMeasureEntity.

(** The assertion of [create_key_name] fails exactly when one of the three
    rendered components contains the separator. *)
Lemma create_key_name_eq (user_id skill_id class_name : pyval) :
  create_key_name user_id skill_id class_name =
    if str_contains SEP (py_str user_id) || str_contains SEP (py_str skill_id)
       || str_contains SEP (py_str class_name)
    then Raise AssertionError
    else Ok (py_str user_id +:+ ":" +:+ py_str skill_id +:+ ":"
             +:+ py_str class_name).
Proof.
  unfold create_key_name.
  by rewrite !str_contains_app, orb_assoc.
Qed.

(** Splitting a key name gives back the components it was built from, the
    third one whatever it contains. *)
Lemma split_key_name_join (a b c : string) :
  str_contains SEP a = false → str_contains SEP b = false →
  split_key_name (a +:+ ":" +:+ b +:+ ":" +:+ c) = Ok (a, b, c).
Proof.
  intros Ha Hb. unfold split_key_name. simpl.
  change (":" +:+ b +:+ ":" +:+ c) with (String SEP (b +:+ String SEP c)).
  rewrite (str_break_sep _ _ _ Ha), (str_break_sep _ _ _ Hb). done.
Qed.

(** C4. For every user id, skill id and measure type name, none of which
    contains the separator [':'], [create_key_name] returns a key name, and
    decomposing that key name as [safe_key] does ([split(':', 2)]) returns
    exactly the original triple; [safe_key] with a transformation that
    leaves the user id as it is returns the key it was given. *)
Theorem create_key_name_roundtrip (user_id skill_id class_name : string) :
  str_contains SEP user_id = false →
  str_contains SEP skill_id = false →
  str_contains SEP class_name = false →
  ∃ key_name,
    create_key_name (PStr user_id) (PStr skill_id) (PStr class_name)
      = Ok key_name
    ∧ split_key_name key_name = Ok (user_id, skill_id, class_name)
    ∧ safe_key (from_path kind key_name) Ok = Ok (from_path kind key_name).
Proof.
  intros Hu Hs Hc.
  assert (Hk : create_key_name (PStr user_id) (PStr skill_id)
                 (PStr class_name)
               = Ok (user_id +:+ ":" +:+ skill_id +:+ ":" +:+ class_name)).
  { rewrite create_key_name_eq, !py_str_PStr, Hu, Hs, Hc. done. }
  eexists. split; [exact Hk|].
  split; [by apply split_key_name_join|].
  unfold safe_key. simpl name.
  rewrite split_key_name_join by done. simpl. by rewrite Hk.
Qed.

(** C5. [create_key_name] raises [AssertionError] if and only if at least
    one of the three components contains the separator [':']; when none
    does, it returns the three components joined by the separator. *)
Theorem create_key_name_assertion (user_id skill_id class_name : string) :
  (create_key_name (PStr user_id) (PStr skill_id) (PStr class_name)
     = Raise AssertionError
   ↔ str_contains SEP user_id = true ∨ str_contains SEP skill_id = true
     ∨ str_contains SEP class_name = true)
  ∧ (str_contains SEP user_id = false ∧ str_contains SEP skill_id = false
     ∧ str_contains SEP class_name = false
     ↔ create_key_name (PStr user_id) (PStr skill_id) (PStr class_name)
         = Ok (user_id +:+ ":" +:+ skill_id +:+ ":" +:+ class_name)).
Proof.
  rewrite create_key_name_eq, !py_str_PStr.
  destruct (str_contains SEP user_id), (str_contains SEP skill_id),
    (str_contains SEP class_name); simpl; intuition congruence.
Qed.

End key_name.

(** A key of the success rate measure of a student for a skill. *)
Lemma create_key_name_roundtrip_witness :
  ∃ key_name,
    CompetencyMeasureEntity.create_key_name (builtins := sample_builtins)
      (PStr "student-17") (PStr "42") (PStr "SuccessRateCompetencyMeasure")
      = Ok key_name
    ∧ CompetencyMeasureEntity.split_key_name key_name
      = Ok ("student-17", "42", "SuccessRateCompetencyMeasure")
    ∧ CompetencyMeasureEntity.safe_key (builtins := sample_builtins)
        (CompetencyMeasureEntity.from_path CompetencyMeasureEntity.kind
           key_name) Ok
      = Ok (CompetencyMeasureEntity.from_path CompetencyMeasureEntity.kind
              key_name).
Proof.
  apply (create_key_name_roundtrip (builtins := sample_builtins)
           "student-17" "42" "SuccessRateCompetencyMeasure");
    reflexivity.
Defined.

(** An e-mail address with a colon cannot be a user id. *)
Example create_key_name_colon :
  CompetencyMeasureEntity.create_key_name (builtins := sample_builtins)
    (PStr "mailto:ann") (PInt 42) (PStr "SuccessRateCompetencyMeasure")
  = Raise AssertionError.
Proof. reflexivity. Qed.

Example create_key_name_int_skill :
  CompetencyMeasureEntity.create_key_name (builtins := sample_builtins)
    (PStr "ann") (PInt 42) (PStr "SuccessRateCompetencyMeasure")
  = Ok "ann:42:SuccessRateCompetencyMeasure".
Proof. vm_compute. reflexivity. Qed.

(** ** The measure documents *)

Section documents.
Import CompetencyMeasureDto.

Lemma success_rate_state_Some doc events correct count :
  success_rate_state doc = Some (events, correct, count) ↔
  ∃ data, events_of doc = Some events ∧ data_of doc = Some data
    ∧ counter SuccessRateCompetencyMeasure.CORRECT_KEY data = Some correct
    ∧ counter SuccessRateCompetencyMeasure.COUNT_KEY data = Some count.
Proof.
  unfold success_rate_state. split.
  - intros Hs.
    destruct (events_of doc) as [evs|]; cbn in Hs; [|done].
    destruct (data_of doc) as [data|]; cbn in Hs; [|done].
    destruct (counter SuccessRateCompetencyMeasure.CORRECT_KEY data)
      as [k|] eqn:Hk; cbn in Hs; [|done].
    destruct (counter SuccessRateCompetencyMeasure.COUNT_KEY data)
      as [n|] eqn:Hn; cbn in Hs; [|done].
    exists data. by simplify_eq.
  - intros (data & -> & -> & Hk & Hn). cbn. rewrite Hk. cbn.
    rewrite Hn. done.
Qed.

Lemma success_rate_state_empty : success_rate_state ∅ = Some ([], 0%Z, 0%Z).
Proof. reflexivity. Qed.

Lemma append_event_events event d events :
  events_of (dict d) = Some events →
  append_event event d
  = Ok (__init__ (_id d) (<["events" := PList (events ++ [event])]> (dict d))).
Proof.
  unfold events_of, append_event.
  destruct (dict d !! "events") as [[]|]; intros; by simplify_eq.
Qed.

Lemma get_data_data property_name d data :
  data_of (dict d) = Some data →
  get_data property_name d = Ok (default PNone (data !! property_name)).
Proof.
  unfold data_of, get_data.
  destruct (dict d !! "data") as [[]|]; intros; by simplify_eq.
Qed.

Lemma set_data_data property_name property_value d data :
  data_of (dict d) = Some data →
  set_data property_name property_value d
  = Ok (__init__ (_id d)
          (<["data" := PDict (<[property_name := property_value]> data)]>
             (dict d))).
Proof.
  unfold data_of, set_data.
  destruct (dict d !! "data") as [[]|]; intros; by simplify_eq.
Qed.

Lemma data_of_insert_data data doc :
  data_of (<["data" := PDict data]> doc) = Some data.
Proof. unfold data_of. by rewrite lookup_insert_eq. Qed.

Lemma data_of_insert_events v doc :
  data_of (<["events" := v]> doc) = data_of doc.
Proof. unfold data_of. by rewrite lookup_insert_ne. Qed.

Lemma events_of_insert_events events doc :
  events_of (<["events" := PList events]> doc) = Some events.
Proof. unfold events_of. by rewrite lookup_insert_eq. Qed.

Lemma events_of_insert_data v doc :
  events_of (<["data" := v]> doc) = events_of doc.
Proof. unfold events_of. by rewrite lookup_insert_ne. Qed.

Lemma counter_insert_eq key z data :
  counter key (<[key := PInt z]> data) = Some z.
Proof. unfold counter. by rewrite lookup_insert_eq. Qed.

Lemma counter_insert_ne key key' v data :
  key' ≠ key → counter key (<[key' := v]> data) = counter key data.
Proof. intros. unfold counter. by rewrite lookup_insert_ne. Qed.

(** [(data.get(key) or 0) + 1] on an integer counter. *)
Lemma py_add1_counter key data z :
  counter key data = Some z →
  py_add1 (py_or (default PNone (data !! key)) (PInt 0)) = Ok (PInt (z + 1)).
Proof.
  unfold counter, py_or.
  destruct (data !! key) as [[]|]; intros; simplify_eq; simpl; try done.
  destruct (Z.eqb_spec z 0) as [->|]; done.
Qed.

(** [data.get(key) or 0] on an integer counter. *)
Lemma py_or_counter key data z :
  counter key data = Some z →
  py_or (default PNone (data !! key)) (PInt 0) = PInt z.
Proof.
  unfold counter, py_or.
  destruct (data !! key) as [[]|]; intros; simplify_eq; simpl; try done.
  destruct (Z.eqb_spec z 0) as [->|]; done.
Qed.

End documents.

Create Rewrite HintDb documents.
#[export] Hint Rewrite data_of_insert_data data_of_insert_events
  events_of_insert_events events_of_insert_data counter_insert_eq : documents.

(** ** The update of a measure *)

Section update.
Import CompetencyMeasureDto.

(** The base [update] on an instance without a document. *)
Lemma base_update_None normalized_score kw self :
  dto self = None →
  BaseCompetencyMeasure.update normalized_score kw self
  = (self, Raise AssertionError).
Proof.
  intros Hd. unfold BaseCompetencyMeasure.update, assert_dto_is_not_None.
  unfold_M. by rewrite Hd.
Qed.

(** The base [update] either succeeds or leaves the instance as it was. *)
Lemma base_update_atomic normalized_score kw self self' e :
  BaseCompetencyMeasure.update normalized_score kw self = (self', Raise e) →
  self' = self.
Proof.
  unfold BaseCompetencyMeasure.update, assert_dto_is_not_None, dto_mutate.
  unfold_M.
  destruct (dto self) as [d|]; [|by intros; simplify_eq].
  destruct (append_event _ d); simpl; by intros; simplify_eq.
Qed.

(** The base [update] never raises [AssertionError] on an instance that
    holds a document. *)
Lemma base_update_Some normalized_score kw self d :
  dto self = Some d →
  (BaseCompetencyMeasure.update normalized_score kw self).2
  ≠ Raise AssertionError.
Proof.
  intros Hd. unfold BaseCompetencyMeasure.update, assert_dto_is_not_None,
    dto_mutate, append_event. unfold_M.
  rewrite Hd. destruct (dict d !! "events") as [[]|]; simpl; done.
Qed.

(** The base [update] on a document whose events are a list: the record
    goes to the end of the list and nothing else changes. *)
Lemma base_update_events normalized_score kw self d events :
  dto self = Some d →
  events_of (dict d) = Some events →
  BaseCompetencyMeasure.update normalized_score kw self
  = (Measure
       (Some (__init__ (_id d)
                (<["events" :=
                     PList (events ++ [BaseCompetencyMeasure.event_record
                                         normalized_score kw])]> (dict d))))
       (user_id self),
     Ok tt).
Proof.
  intros Hd Hev. unfold BaseCompetencyMeasure.update,
    assert_dto_is_not_None, dto_mutate. unfold_M.
  rewrite Hd. simpl. rewrite (append_event_events _ _ _ Hev). done.
Qed.

(** The summary update on a document whose data hold integer counters. *)
Lemma update_summary_counters normalized_score self d data correct count :
  dto self = Some d →
  data_of (dict d) = Some data →
  counter SuccessRateCompetencyMeasure.CORRECT_KEY data = Some correct →
  counter SuccessRateCompetencyMeasure.COUNT_KEY data = Some count →
  ∃ data',
    update_summary normalized_score self
    = (Measure (Some (__init__ (_id d) (<["data" := PDict data']> (dict d))))
         (user_id self), Ok tt)
    ∧ counter SuccessRateCompetencyMeasure.CORRECT_KEY data'
      = Some (correct + Z.b2z (is_correct normalized_score))%Z
    ∧ counter SuccessRateCompetencyMeasure.COUNT_KEY data'
      = Some (count + 1)%Z.
Proof.
  intros Hd Hdata Hk Hn.
  unfold update_summary, dto_call, dto_mutate. unfold_M.
  rewrite Hd, (get_data_data _ _ _ Hdata), (py_add1_counter _ _ _ Hn).
  rewrite (set_data_data _ _ _ _ Hdata). simpl.
  destruct (is_correct normalized_score); simpl.
  - set (data1 := <[SuccessRateCompetencyMeasure.COUNT_KEY :=
                      PInt (count + 1)]> data).
    rewrite (get_data_data _ _ data1) by apply data_of_insert_data.
    rewrite (py_add1_counter _ _ correct)
      by (unfold data1; by rewrite counter_insert_ne).
    rewrite (set_data_data _ _ _ data1) by apply data_of_insert_data.
    simpl. rewrite insert_insert_eq. eexists. split; [done|].
    split; [apply counter_insert_eq|].
    unfold data1. by rewrite counter_insert_ne, counter_insert_eq.
  - eexists. split; [done|]. rewrite Z.add_0_r.
    split; [by rewrite counter_insert_ne | apply counter_insert_eq].
Qed.

(** [update] is the base [update] followed by the summary update. *)
Lemma update_unfold normalized_score kw :
  SuccessRateCompetencyMeasure.update normalized_score kw
  = (BaseCompetencyMeasure.update normalized_score kw ;;;
     update_summary normalized_score).
Proof. reflexivity. Qed.

(** [update] on an instance without a document. *)
Lemma update_None normalized_score kw self :
  dto self = None →
  SuccessRateCompetencyMeasure.update normalized_score kw self
  = (self, Raise AssertionError).
Proof.
  intros Hd. rewrite update_unfold. unfold sbind at 1.
  by rewrite base_update_None.
Qed.

(** [update] on a well-formed success rate document: one record more at
    the end of the events, [count] one more, [correct] one more when the
    observation is judged correct, and the rest of the document as it
    was. *)
Lemma update_state normalized_score kw self d events correct count :
  dto self = Some d →
  success_rate_state (dict d) = Some (events, correct, count) →
  ∃ d',
    SuccessRateCompetencyMeasure.update normalized_score kw self
    = (Measure (Some d') (user_id self), Ok tt)
    ∧ _id d' = _id d
    ∧ success_rate_state (dict d')
      = Some (events ++ [BaseCompetencyMeasure.event_record
                           normalized_score kw],
              (correct + Z.b2z (is_correct normalized_score))%Z,
              (count + 1)%Z)
    ∧ ∀ key,
        key ≠ "data" → key ≠ "events" → dict d' !! key = dict d !! key.
Proof.
  intros Hd (data & Hev & Hdata & Hk & Hn)%success_rate_state_Some.
  rewrite update_unfold. unfold sbind at 1.
  rewrite (base_update_events _ _ _ _ _ Hd Hev).
  edestruct (update_summary_counters normalized_score)
    as (data' & -> & Hk' & Hn'); [done| |exact Hk|exact Hn|].
  { simpl. by rewrite data_of_insert_events. }
  eexists. split; [done|]. simpl. split; [done|]. split.
  - apply success_rate_state_Some. exists data'.
    by autorewrite with documents.
  - intros key ? ?. by rewrite !lookup_insert_ne.
Qed.

Lemma count_correct_cons call calls :
  count_correct (call :: calls)
  = (Z.b2z (is_correct call.1) + count_correct calls)%Z.
Proof.
  unfold count_correct. rewrite filter_cons.
  case_decide as Hc.
  - rewrite Hc. simpl length. simpl Z.b2z. lia.
  - apply not_true_is_false in Hc. rewrite Hc. simpl Z.b2z. lia.
Qed.

(** The base [update], called any number of times on a document whose
    events are a list. *)
Lemma base_updates_events calls : ∀ self d events,
  dto self = Some d →
  events_of (dict d) = Some events →
  ∃ d',
    updates BaseCompetencyMeasure.class calls self
    = (Measure (Some d') (user_id self), Ok tt)
    ∧ _id d' = _id d
    ∧ events_of (dict d')
      = Some (events
              ++ map (fun call =>
                        BaseCompetencyMeasure.event_record call.1 call.2)
                   calls)
    ∧ ∀ key, key ≠ "events" → dict d' !! key = dict d !! key.
Proof.
  induction calls as [|[normalized_score kw] calls IH];
    intros self d events Hd Hev.
  - exists d. rewrite app_nil_r. destruct self; simpl in *. by subst.
  - simpl updates. unfold sbind.
    rewrite (base_update_events _ _ _ _ _ Hd Hev).
    edestruct IH as (d' & -> & Hid & Hev' & Hrest);
      [done|simpl; apply events_of_insert_events|].
    exists d'. simpl. split; [done|]. split; [done|]. split.
    + by rewrite Hev', <- app_assoc.
    + intros key ?. rewrite Hrest by done. simpl. by rewrite lookup_insert_ne.
Qed.

(** [update], called any number of times on a well-formed success rate
    document. *)
Lemma updates_state {builtins : PyBuiltins} calls :
  ∀ self d events correct count,
  dto self = Some d →
  success_rate_state (dict d) = Some (events, correct, count) →
  ∃ d',
    updates SuccessRateCompetencyMeasure.class calls self
    = (Measure (Some d') (user_id self), Ok tt)
    ∧ _id d' = _id d
    ∧ success_rate_state (dict d')
      = Some (events
              ++ map (fun call =>
                        BaseCompetencyMeasure.event_record call.1 call.2)
                   calls,
              (correct + count_correct calls)%Z,
              (count + Z.of_nat (length calls))%Z).
Proof.
  induction calls as [|[normalized_score kw] calls IH];
    intros self d events correct count Hd Hst.
  - exists d. rewrite app_nil_r, !Z.add_0_r.
    destruct self; simpl in *. by subst.
  - simpl updates. unfold sbind.
    destruct (update_state normalized_score kw _ _ _ _ _ Hd Hst)
      as (d1 & Hup & Hid1 & Hst1 & _).
    simpl update. rewrite Hup.
    edestruct IH as (d' & -> & Hid & Hst'); [done|exact Hst1|].
    exists d'. simpl. split; [done|]. split; [congruence|].
    rewrite Hst', count_correct_cons, <- app_assoc. simpl length.
    rewrite Nat2Z.inj_succ, <- Z.add_1_l, !Z.add_assoc. done.
Qed.

(** C3. On a loaded measure whose stored events are a sequence, each
    [update] appends exactly one event record at the end of the events and
    keeps the records before it as they were, in their order: after the
    calls the events are the stored ones followed by one record per call in
    arrival order (the records of the calls alone on a new document), and
    [get_events_list] returns exactly that sequence.  This holds of the
    base class and, given integer counters, of the success rate measure. *)
Theorem events_in_arrival_order {builtins : PyBuiltins} (self : measure)
    (d : Dto) (events : list pyval) (calls : list (pyval * kwargs)) :
  dto self = Some d →
  events_of (dict d) = Some events →
  let records :=
    map (fun call => BaseCompetencyMeasure.event_record call.1 call.2) calls in
  (∃ self',
     updates BaseCompetencyMeasure.class calls self = (self', Ok tt)
     ∧ BaseCompetencyMeasure.get_events_list self'
       = Ok (PList (events ++ records)))
  ∧ (∀ correct count,
       success_rate_state (dict d) = Some (events, correct, count) →
       ∃ self',
         updates SuccessRateCompetencyMeasure.class calls self
         = (self', Ok tt)
         ∧ BaseCompetencyMeasure.get_events_list self'
           = Ok (PList (events ++ records))).
Proof.
  intros Hd Hev records.
  assert (Hget : ∀ d' l, events_of (dict d') = Some l →
            l = events ++ records →
            BaseCompetencyMeasure.get_events_list
              (Measure (Some d') (user_id self)) = Ok (PList l)).
  { intros d' l Hl _. unfold BaseCompetencyMeasure.get_events_list,
      get_events_list, events_of in *. simpl.
    destruct (dict d' !! "events") as [[]|]; by simplify_eq. }
  split.
  - destruct (base_updates_events calls _ _ _ Hd Hev)
      as (d' & Hup & _ & Hev' & _).
    eexists. split; [exact Hup|]. by apply Hget.
  - intros correct count Hst.
    destruct (updates_state calls _ _ _ _ _ Hd Hst) as (d' & Hup & _ & Hst').
    apply success_rate_state_Some in Hst' as (? & Hev' & _).
    eexists. split; [exact Hup|]. by apply Hget.
Qed.

(** C2 (as amended). [SuccessRateCompetencyMeasure.update] first chains to
    the base [update], which appends the raw event record: when that call
    raises, [update] raises the same exception and the data summary is not
    touched.  Only then does it update its data summary, incrementing
    [count] unconditionally and [correct] if and only if the score is at
    or above the cutoff 0.5. *)
Theorem update_logs_then_summarises (normalized_score : pyval) (kw : kwargs)
    (self : measure) :
  (∀ self1 e,
     BaseCompetencyMeasure.update normalized_score kw self = (self1, Raise e) →
     SuccessRateCompetencyMeasure.update normalized_score kw self
     = (self, Raise e))
  ∧ (∀ self1,
       BaseCompetencyMeasure.update normalized_score kw self = (self1, Ok tt) →
       SuccessRateCompetencyMeasure.update normalized_score kw self
       = update_summary normalized_score self1)
  ∧ (∀ d events correct count,
       dto self = Some d →
       success_rate_state (dict d) = Some (events, correct, count) →
       ∃ d',
         SuccessRateCompetencyMeasure.update normalized_score kw self
         = (Measure (Some d') (user_id self), Ok tt)
         ∧ success_rate_state (dict d')
           = Some (events ++ [BaseCompetencyMeasure.event_record
                                normalized_score kw],
                   (correct
                    + Z.b2z (py_ge_float normalized_score 0.5%float))%Z,
                   (count + 1)%Z)).
Proof.
  split; [|split].
  - intros self1 e Hbase. rewrite update_unfold. unfold sbind at 1.
    rewrite Hbase. by rewrite (base_update_atomic _ _ _ _ _ Hbase).
  - intros self1 Hbase. rewrite update_unfold. unfold sbind at 1.
    by rewrite Hbase.
  - intros d events correct count Hd Hst.
    destruct (update_state normalized_score kw _ _ _ _ _ Hd Hst)
      as (d' & Hup & _ & Hst' & _).
    by exists d'.
Qed.

End update.

(** The claim C2 fails as stated.  On an instance that was never loaded the
    code raises the [AssertionError] of the base [update], where an update
    of the summary first would raise an [AttributeError]; and on a document
    whose events are not a list the code raises with the counters
    untouched, where an update of the summary first would have counted the
    observation. *)
Lemma update_summary_first_counterexample :
  let unloaded := BaseCompetencyMeasure.__init__ "ann" in
  let loaded :=
    Measure (Some (CompetencyMeasureDto.__init__
                     "ann:7:SuccessRateCompetencyMeasure"
                     {["events" := PNone]})) "ann" in
  SuccessRateCompetencyMeasure.update (PFloat 0.75) no_kwargs unloaded
  = (unloaded, Raise AssertionError)
  ∧ update_summary_then_log (PFloat 0.75) no_kwargs unloaded
    = (unloaded, Raise AttributeError)
  ∧ SuccessRateCompetencyMeasure.update (PFloat 0.75) no_kwargs loaded
    = (loaded, Raise AttributeError)
  ∧ update_summary_then_log (PFloat 0.75) no_kwargs loaded
    = (Measure (Some (CompetencyMeasureDto.__init__
                        "ann:7:SuccessRateCompetencyMeasure"
                        (<["data" := PDict (<["correct" := PInt 1]>
                                             {["count" := PInt 1]})]>
                           {["events" := PNone]}))) "ann",
       Raise AttributeError)
  ∧ SuccessRateCompetencyMeasure.update (PFloat 0.75) no_kwargs loaded
    ≠ update_summary_then_log (PFloat 0.75) no_kwargs loaded.
Proof.
  repeat split; try (vm_compute; reflexivity).
  intros Heq. vm_compute in Heq. discriminate Heq.
Qed.

(** ** The life cycle of a measure: load, update, save *)

Section lifecycle.
Context {builtins : PyBuiltins}.
Import CompetencyMeasureDto.

(** [load] reads the document stored under the key of the instance, or
    starts from an empty document. *)
Lemma load_eq cls skill_id self key w :
  CompetencyMeasureEntity.create_key_name (PStr (user_id self)) skill_id
    (PStr (__name__ cls)) = Ok key →
  BaseCompetencyMeasure.load cls skill_id self w
  = (World (docs w) (registry w) (trace w ++ [DaoLoad key]),
     Ok (Measure (Some (__init__ key (default ∅ (docs w !! key))))
           (user_id self))).
Proof.
  intros Hkey. unfold BaseCompetencyMeasure.load, CompetencyMeasureDao.load.
  unfold_M. rewrite Hkey. simpl. by destruct (docs w !! key).
Qed.

(** [load] raises only the assertion of the key, touching nothing. *)
Lemma load_raise cls skill_id self w w' e :
  BaseCompetencyMeasure.load cls skill_id self w = (w', Raise e) →
  w' = w ∧ e = AssertionError.
Proof.
  unfold BaseCompetencyMeasure.load, sbind, lift.
  rewrite create_key_name_eq.
  destruct (_ || _); simpl; [by intros; simplify_eq|].
  by destruct (docs w !! _).
Qed.

Lemma load_Ok cls skill_id self w w' self' :
  BaseCompetencyMeasure.load cls skill_id self w = (w', Ok self') →
  is_Some (dto self').
Proof.
  unfold BaseCompetencyMeasure.load, sbind, lift.
  rewrite create_key_name_eq.
  destruct (_ || _); simpl; [done|].
  unfold sret. intros; simplify_eq. simpl. by eexists.
Qed.

(** [save] stores the document under its key and drops it. *)
Lemma save_eq self d w :
  dto self = Some d →
  BaseCompetencyMeasure.save self w
  = (World (<[_id d := dict d]> (docs w)) (registry w)
       (trace w ++ [DaoSave (_id d)]),
     Ok (Measure None (user_id self))).
Proof. intros Hd. unfold BaseCompetencyMeasure.save. by rewrite Hd. Qed.

Lemma save_None self w :
  dto self = None →
  BaseCompetencyMeasure.save self w = (w, Raise AssertionError).
Proof. intros Hd. unfold BaseCompetencyMeasure.save. by rewrite Hd. Qed.

(** The score of a well-formed success rate document. *)
Lemma get_skill_score_state self d events correct count :
  dto self = Some d →
  success_rate_state (dict d) = Some (events, correct, count) →
  SuccessRateCompetencyMeasure.get_skill_score self
  = if (count =? 0)%Z then Ok 0%float else success_rate correct count.
Proof.
  intros Hd (data & _ & Hdata & Hk & Hn)%success_rate_state_Some.
  unfold SuccessRateCompetencyMeasure.get_skill_score. rewrite Hd.
  rewrite !(get_data_data _ _ _ Hdata). simpl.
  rewrite (py_or_counter _ _ _ Hk), (py_or_counter _ _ _ Hn). simpl.
  destruct (Z.eqb_spec count 0) as [->|Hne]; simpl; [done|].
  unfold success_rate. destruct (int_to_float correct); simpl; [|done].
  destruct (int_to_float count); simpl; [|done].
  by destruct (Z.eqb_spec count 0).
Qed.

(** The summary update raises no [AssertionError]. *)
Lemma update_summary_no_assertion normalized_score self :
  (update_summary normalized_score self).2 ≠ Raise AssertionError.
Proof.
  unfold update_summary, sbind, dto_call, dto_mutate, sread, supdate, lift,
    sret, get_data, set_data, py_add1, py_or, rbind.
  repeat (case_match; simplify_eq; simpl in *; try done).
Qed.

(** C1. A success rate measure is loaded for a student and a skill with no
    prior observations (no stored document, or one whose counters are
    zero), and [update] is called with the scores s1..sn.  Then
    [get_skill_score] returns [float(k) / n], [k] the number of the scores
    at or above 0.5, when [n > 0], and [0.0] when [n = 0]; and it returns
    the same after the measure is saved and loaded again.  The scores need
    not lie in the unit interval for this. *)
Theorem success_rate_of_observations (w : world) (uid : string)
    (skill_id : pyval) (key : string) (events : list pyval)
    (calls : list (pyval * kwargs)) :
  CompetencyMeasureEntity.create_key_name (PStr uid) skill_id
    (PStr "SuccessRateCompetencyMeasure") = Ok key →
  success_rate_state (default ∅ (docs w !! key)) = Some (events, 0%Z, 0%Z) →
  let n := Z.of_nat (length calls) in
  let expected :=
    if (n =? 0)%Z then Ok 0%float
    else success_rate (count_correct calls) n in
  ∃ w1 m1 m2,
    BaseCompetencyMeasure.load SuccessRateCompetencyMeasure.class skill_id
      (BaseCompetencyMeasure.__init__ uid) w = (w1, Ok m1)
    ∧ updates SuccessRateCompetencyMeasure.class calls m1 = (m2, Ok tt)
    ∧ SuccessRateCompetencyMeasure.get_skill_score m2 = expected
    ∧ ∃ w2 m3 w3 m4,
        BaseCompetencyMeasure.save m2 w1 = (w2, Ok m3)
        ∧ BaseCompetencyMeasure.load SuccessRateCompetencyMeasure.class
            skill_id m3 w2 = (w3, Ok m4)
        ∧ SuccessRateCompetencyMeasure.get_skill_score m4 = expected.
Proof.
  intros Hkey Hst n expected.
  destruct (updates_state calls
              (Measure (Some (__init__ key (default ∅ (docs w !! key)))) uid)
              _ _ _ _ eq_refl Hst) as (d' & Hup & Hid & Hst').
  eexists _, _, _. split; [by apply load_eq|].
  split; [exact Hup|]. rewrite !Z.add_0_l in Hst'. simpl in Hid.
  split; [by eapply get_skill_score_state|].
  eexists _, _, _, _. split; [by apply save_eq|].
  split; [by apply load_eq|].
  eapply get_skill_score_state; [reflexivity|]. simpl.
  rewrite Hid, lookup_insert_eq. exact Hst'.
Qed.

(** C9. On an instance without a document, [save], [update] (of the base
    class and of the success rate measure) and [get_events_list] raise
    [AssertionError] and change neither the instance nor the store.  An
    instance has no document when it is new and again after a [save].  On
    an instance with a document, which is what a successful [load] leaves,
    none of the three raises [AssertionError]. *)
Theorem unloaded_measure_fails_fast (self : measure) :
  (dto self = None →
     (∀ w, BaseCompetencyMeasure.save self w = (w, Raise AssertionError))
     ∧ (∀ normalized_score kw,
          BaseCompetencyMeasure.update normalized_score kw self
          = (self, Raise AssertionError))
     ∧ (∀ normalized_score kw,
          SuccessRateCompetencyMeasure.update normalized_score kw self
          = (self, Raise AssertionError))
     ∧ BaseCompetencyMeasure.get_events_list self = Raise AssertionError)
  ∧ (is_Some (dto self) →
     (∀ w, (BaseCompetencyMeasure.save self w).2 ≠ Raise AssertionError)
     ∧ (∀ normalized_score kw,
          (BaseCompetencyMeasure.update normalized_score kw self).2
          ≠ Raise AssertionError)
     ∧ (∀ normalized_score kw,
          (SuccessRateCompetencyMeasure.update normalized_score kw self).2
          ≠ Raise AssertionError)
     ∧ BaseCompetencyMeasure.get_events_list self ≠ Raise AssertionError)
  ∧ (∀ uid, dto (BaseCompetencyMeasure.__init__ uid) = None)
  ∧ (∀ w w' self',
       BaseCompetencyMeasure.save self w = (w', Ok self') → dto self' = None)
  ∧ (∀ cls skill_id w w' self',
       BaseCompetencyMeasure.load cls skill_id self w = (w', Ok self') →
       is_Some (dto self')).
Proof.
  split; [|split; [|split; [|split]]].
  - intros Hd. split; [intros; by apply save_None|].
    split; [intros; by apply base_update_None|].
    split; [intros; by apply update_None|].
    unfold BaseCompetencyMeasure.get_events_list. by rewrite Hd.
  - intros [d Hd]. split; [intros w; by rewrite (save_eq _ _ _ Hd)|].
    split; [intros; by eapply base_update_Some|]. split.
    + intros normalized_score kw. rewrite update_unfold. unfold sbind at 1.
      pose proof (base_update_Some normalized_score kw _ _ Hd) as Hbase.
      destruct (BaseCompetencyMeasure.update normalized_score kw self)
        as [self1 [[]|e]]; simpl in *; [|done].
      apply update_summary_no_assertion.
    + unfold BaseCompetencyMeasure.get_events_list. by rewrite Hd.
  - done.
  - intros w w' self'. unfold BaseCompetencyMeasure.save.
    destruct (dto self); [|done].
    unfold sbind, CompetencyMeasureDao.save, log, sret. simpl.
    by intros; simplify_eq.
  - intros *. apply load_Ok.
Qed.

End lifecycle.

(** ** The event ingestors *)

Lemma map_zip_QuestionScore (quids scores : list pyval) :
  map (fun p => Build_QuestionScore p.1 p.2) (zip quids scores)
  = zip_with Build_QuestionScore quids scores.
Proof.
  revert scores. induction quids as [|q quids IH]; intros [|s scores];
    simpl; try done. by rewrite IH.
Qed.

Lemma py_eq_str_false (v : pyval) (s : string) :
  v ≠ PStr s → py_eq_str v s = false.
Proof.
  destruct v; simpl; try done. intros Hne.
  apply String.eqb_neq. congruence.
Qed.

(** C8. A single item that is a question group yields its sub-question
    ids zipped positionally with its per-sub-question scores; with three
    ids and three scores these are exactly three pairs, the i-th coupling
    the i-th id with the i-th score.  A single item that is not a group
    yields exactly the one pair of its question id and its score. *)
Theorem single_item_question_scores (item : gmap string pyval) :
  (∀ quids individualScores,
     item !! "type" = Some (PStr "QuestionGroup") →
     item !! "quids" = Some (PList quids) →
     item !! "individualScores" = Some (PList individualScores) →
     _get_questions_scores_from_single_item (PDict item)
     = Ok (zip_with Build_QuestionScore quids individualScores))
  ∧ (∀ q1 q2 q3 s1 s2 s3,
       item !! "type" = Some (PStr "QuestionGroup") →
       item !! "quids" = Some (PList [q1; q2; q3]) →
       item !! "individualScores" = Some (PList [s1; s2; s3]) →
       _get_questions_scores_from_single_item (PDict item)
       = Ok [Build_QuestionScore q1 s1; Build_QuestionScore q2 s2;
             Build_QuestionScore q3 s3])
  ∧ (∀ type a_quid a_score,
       item !! "type" = Some type →
       type ≠ PStr "QuestionGroup" →
       item !! "quid" = Some a_quid →
       item !! "score" = Some a_score →
       _get_questions_scores_from_single_item (PDict item)
       = Ok [Build_QuestionScore a_quid a_score]).
Proof.
  assert (Hgroup : ∀ quids individualScores,
     item !! "type" = Some (PStr "QuestionGroup") →
     item !! "quids" = Some (PList quids) →
     item !! "individualScores" = Some (PList individualScores) →
     _get_questions_scores_from_single_item (PDict item)
     = Ok (zip_with Build_QuestionScore quids individualScores)).
  { intros quids individualScores Htype Hquids Hscores.
    unfold _get_questions_scores_from_single_item. simpl.
    rewrite Htype. simpl. rewrite Hquids, Hscores. simpl.
    by rewrite map_zip_QuestionScore. }
  split; [exact Hgroup|]. split.
  - intros * Htype Hquids Hscores.
    by rewrite (Hgroup _ _ Htype Hquids Hscores).
  - intros type a_quid a_score Htype Hne Hquid Hscore.
    unfold _get_questions_scores_from_single_item. simpl.
    rewrite Htype. simpl. rewrite (py_eq_str_false _ _ Hne).
    by rewrite Hquid, Hscore.
Qed.

(** ** The event listener *)

Section listener.
Context {builtins : PyBuiltins} {collaborators : Collaborators}.

(** The listener extracts the pairs of the event and records them. *)
Lemma record_event_listener_eq source user data w :
  record_event_listener source user data w
  = match question_scores_of_event source data with
    | None => (w, Ok tt)
    | Some (Ok question_scores) =>
        record_question_scores user question_scores w
    | Some (Raise e) => (w, Raise e)
    end.
Proof.
  unfold record_event_listener, question_scores_of_event.
  repeat case_match; simplify_eq; try done;
    unfold sbind, lift, rbind in *; repeat case_match; by simplify_eq.
Qed.

(** C6. A multi-item payload that is a bare list yields no pair at all and
    raises nothing; an event that carries such a payload leaves the state
    as it was, without any call to the datastore. *)
Theorem legacy_list_yields_nothing (payload : list pyval) :
  _get_questions_scores_from_many_items (PList payload) = Ok []
  ∧ ∀ user data w,
      loads data = Ok (PList payload) →
      record_event_listener "attempt-lesson" user data w = (w, Ok tt).
Proof.
  split; [done|]. intros user data w Hloads.
  rewrite record_event_listener_eq. unfold question_scores_of_event.
  simpl. rewrite Hloads. done.
Qed.

(** C7. For a source tag other than the three recognized ones the listener
    returns without raising, whatever the user and the payload, and leaves
    the state as it was: no document is read or saved and no call reaches
    the datastore. *)
Theorem unrecognized_source_ignored (source : string) (user : User)
    (data : string) (w : world) :
  source ≠ "tag-assessment" →
  source ≠ "attempt-lesson" →
  source ≠ "submit-assessment" →
  record_event_listener source user data w = (w, Ok tt).
Proof.
  intros H1%String.eqb_neq H2%String.eqb_neq H3%String.eqb_neq.
  unfold record_event_listener. by rewrite H1, H2, H3.
Qed.

(** The grouping loop only looks questions up: whatever it returns, the
    measure documents and the registry are as they were, and the calls it
    logged are question lookups. *)
Lemma group_scores_frame question_scores : ∀ scores_by_skill w w' r,
  group_scores question_scores scores_by_skill w = (w', r) →
  docs w' = docs w ∧ registry w' = registry w
  ∧ ∃ quids, trace w' = trace w ++ map QuestionLoad quids.
Proof.
  induction question_scores as [|question_score rest IH];
    intros scores_by_skill w w' r; simpl.
  - unfold sret. intros; simplify_eq. repeat split. exists [].
    by rewrite app_nil_r.
  - unfold sbind, log, lift, sraise. simpl.
    set (w1 := World _ _ _).
    assert (Hframe : docs w1 = docs w ∧ registry w1 = registry w
              ∧ ∃ quids, trace w1 = trace w ++ map QuestionLoad quids).
    { repeat split. by exists [quid question_score]. }
    destruct (QuestionDAO_load (quid question_score)) as [[question|]|e];
      [|by intros [= <- <-]..].
    destruct (py_iter _) as [skill_ids|e]; [|by intros [= <- <-]].
    destruct (append_score _ _ _) as [scores_by_skill'|e];
      [|by intros [= <- <-]].
    intros (Hdocs & Hreg & quids & Htrace)%IH. subst w1; simpl in *.
    repeat split; [done..|]. exists (quid question_score :: quids).
    by rewrite Htrace, <- app_assoc.
Qed.

(** The grouping loop raises [AttributeError] at the first pair whose
    question is absent. *)
Lemma group_scores_absent pre : ∀ question_score post scores_by_skill w acc,
  (group_scores pre scores_by_skill w).2 = Ok acc →
  QuestionDAO_load (quid question_score) = Ok None →
  (group_scores (pre ++ question_score :: post) scores_by_skill w).2
  = Raise AttributeError.
Proof.
  induction pre as [|p pre IH];
    intros question_score post scores_by_skill w acc Hpre Habsent; simpl.
  - unfold sbind, log, lift, sraise. simpl. by rewrite Habsent.
  - simpl in Hpre. unfold sbind, log, lift, sraise in *. simpl in *.
    destruct (QuestionDAO_load (quid p)) as [[question|]|e]; [|done..].
    destruct (py_iter _) as [skill_ids|e]; [|done].
    destruct (append_score _ _ _) as [scores_by_skill'|e]; [|done].
    by eapply IH.
Qed.

(** The grouping loop raises when the question of some pair is absent. *)
Lemma group_scores_raises question_scores :
  ∀ question_score scores_by_skill w,
  question_score ∈ question_scores →
  QuestionDAO_load (quid question_score) = Ok None →
  ∃ e, (group_scores question_scores scores_by_skill w).2 = Raise e.
Proof.
  induction question_scores as [|p rest IH];
    intros question_score scores_by_skill w Hin Habsent.
  - by apply elem_of_nil in Hin.
  - simpl. unfold sbind, log, lift, sraise. simpl.
    apply elem_of_cons in Hin as [->|Hin].
    + rewrite Habsent. by eexists.
    + destruct (QuestionDAO_load (quid p)) as [[question|]|e];
        [|by eexists..].
      destruct (py_iter _) as [skill_ids|e]; [|by eexists].
      destruct (append_score _ _ _) as [scores_by_skill'|e]; [|by eexists].
      by eapply IH.
Qed.

(** C10. When a recognized event yields a question-score pair whose
    question is absent from the question store, the listener raises: the
    [AttributeError] of the access to the absent question when the pairs
    before it are grouped without an exception.  The event is abandoned in
    the grouping loop, before any updater is built: the measure documents
    are as they were and no call reached them. *)
Theorem absent_question_aborts_event (source : string) (user : User)
    (data : string) (question_scores : list QuestionScore)
    (question_score : QuestionScore) (w : world) :
  question_scores_of_event source data = Some (Ok question_scores) →
  question_score ∈ question_scores →
  QuestionDAO_load (quid question_score) = Ok None →
  ∃ w' e,
    record_event_listener source user data w = (w', Raise e)
    ∧ docs w' = docs w
    ∧ registry w' = registry w
    ∧ (∃ quids, trace w' = trace w ++ map QuestionLoad quids)
    ∧ (∀ pre post acc,
         question_scores = pre ++ question_score :: post →
         (group_scores pre [] w).2 = Ok acc →
         e = AttributeError).
Proof.
  intros Hevent Hin Habsent.
  rewrite record_event_listener_eq, Hevent.
  unfold record_question_scores, sbind.
  destruct (group_scores_raises _ _ [] w Hin Habsent) as [e He].
  destruct (group_scores question_scores [] w) as [w' r] eqn:Hgroup.
  simpl in He. subst r. exists w', e. split; [done|].
  destruct (group_scores_frame _ _ _ _ _ Hgroup) as (Hdocs & Hreg & Htrace).
  repeat split; [done..|].
  intros pre post acc -> Hpre.
  pose proof (group_scores_absent pre question_score post [] w acc Hpre
                Habsent) as Hraise.
  rewrite Hgroup in Hraise. simpl in Hraise. congruence.
Qed.

End listener.

(** ** More on the measure documents *)

Section more_documents.
Import CompetencyMeasureDto.

(** X1. A property written with [set_data] is what [get_data] returns
    afterwards; the other properties, the events and the key of the
    document are as they were. *)
Theorem set_data_get_data (property_name : string) (property_value : pyval)
    (d d' : Dto) :
  set_data property_name property_value d = Ok d' →
  get_data property_name d' = Ok property_value
  ∧ (∀ other, other ≠ property_name → get_data other d' = get_data other d)
  ∧ get_events_list d' = get_events_list d
  ∧ _id d' = _id d.
Proof.
  unfold set_data, get_data, get_events_list.
  destruct (dict d !! "data") as [[| | | | | |data]|] eqn:Hdata;
    intros; simplify_eq; simpl; rewrite lookup_insert_eq.
  - rewrite lookup_insert_eq. split; [done|]. split.
    + intros other Hne. by rewrite lookup_insert_ne.
    + by rewrite lookup_insert_ne.
  - rewrite lookup_singleton_eq. split; [done|]. split.
    + intros other Hne. by rewrite lookup_singleton_ne.
    + by rewrite lookup_insert_ne.
Qed.

(** X2. [set_data] fails only on a document whose ['data'] entry is not a
    dict, with a [TypeError], and [append_event] only on a document whose
    ['events'] entry is not a list, with an [AttributeError]; [get_data]
    fails exactly when [set_data] does. *)
Theorem dto_methods_errors (d : Dto) (name : string) (v : pyval) :
  (data_of (dict d) = None ↔ set_data name v d = Raise TypeError)
  ∧ (data_of (dict d) = None ↔ get_data name d = Raise AttributeError)
  ∧ (events_of (dict d) = None ↔ append_event v d = Raise AttributeError)
  ∧ (is_Some (data_of (dict d)) ↔ ∃ d', set_data name v d = Ok d')
  ∧ (is_Some (events_of (dict d)) ↔ ∃ d', append_event v d = Ok d').
Proof.
  unfold data_of, events_of, set_data, get_data, append_event.
  destruct (dict d !! "data") as [[]|], (dict d !! "events") as [[]|];
    repeat split; intros; try done; try (by eexists);
    try (by destruct select (is_Some _)); try (by destruct select (∃ _, _)).
Qed.

End more_documents.


(** ** More on the life cycle of a measure *)

Section more_lifecycle.
Context {builtins : PyBuiltins}.
Import CompetencyMeasureDto.

(** X3. The score is a function of the data summary alone: logging an
    event with the base [update] does not change what [get_skill_score]
    returns, whatever the document holds. *)
Theorem get_skill_score_ignores_events (normalized_score : pyval)
    (kw : kwargs) (self self' : measure) :
  BaseCompetencyMeasure.update normalized_score kw self = (self', Ok tt) →
  SuccessRateCompetencyMeasure.get_skill_score self'
  = SuccessRateCompetencyMeasure.get_skill_score self.
Proof.
  unfold BaseCompetencyMeasure.update, assert_dto_is_not_None, dto_mutate,
    append_event. unfold_M.
  destruct (dto self) as [d|] eqn:Hd; [|done]. simpl.
  unfold SuccessRateCompetencyMeasure.get_skill_score, get_data.
  destruct (dict d !! "events") as [[]|]; simpl; intros; simplify_eq;
    simpl; rewrite Hd, lookup_insert_ne; done.
Qed.

(** X4. The counters of a success rate document stay in step with its
    event log: a new document is consistent, and [update] on a consistent
    document succeeds and leaves a consistent document, with one event
    more. *)
Theorem update_keeps_consistent (normalized_score : pyval) (kw : kwargs)
    (self : measure) (d : Dto) :
  consistent ∅
  ∧ (dto self = Some d →
     consistent (dict d) →
     ∃ d',
       SuccessRateCompetencyMeasure.update normalized_score kw self
       = (Measure (Some d') (user_id self), Ok tt)
       ∧ consistent (dict d')
       ∧ (length <$> events_of (dict d'))
         = (S ∘ length <$> events_of (dict d))).
Proof.
  split.
  { exists [], 0%Z, 0%Z. split; [done|]. simpl. lia. }
  intros Hd (events & correct & count & Hst & Hcount & Hrange).
  destruct (update_state normalized_score kw _ _ _ _ _ Hd Hst)
    as (d' & Hup & _ & Hst' & _).
  exists d'. split; [done|].
  pose proof Hst as (? & Hev & _)%success_rate_state_Some.
  pose proof Hst' as (? & Hev' & _)%success_rate_state_Some.
  split.
  - eexists _, _, _. split; [exact Hst'|].
    rewrite length_app. simpl length.
    destruct (is_correct normalized_score); simpl Z.b2z; lia.
  - rewrite Hev, Hev'. simpl. rewrite length_app. simpl. f_equal. lia.
Qed.

(** X5. [load] never writes: it leaves the stored documents as they were.
    A measure that is loaded and saved at once stores back the document it
    read, so the store is unchanged when the document existed, and holds
    an empty document under the key when it did not. *)
Theorem load_save_roundtrip (cls : MeasureClass) (skill_id : pyval)
    (uid : string) (key : string) (w : world) :
  CompetencyMeasureEntity.create_key_name (PStr uid) skill_id
    (PStr (__name__ cls)) = Ok key →
  ∃ w1 m1 w2 m2,
    BaseCompetencyMeasure.load cls skill_id
      (BaseCompetencyMeasure.__init__ uid) w = (w1, Ok m1)
    ∧ docs w1 = docs w
    ∧ BaseCompetencyMeasure.save m1 w1 = (w2, Ok m2)
    ∧ docs w2 = <[key := default ∅ (docs w !! key)]> (docs w)
    ∧ (is_Some (docs w !! key) → docs w2 = docs w)
    ∧ trace w2 = trace w ++ [DaoLoad key; DaoSave key]
    ∧ dto m2 = None.
Proof.
  intros Hkey. eexists _, _, _, _.
  split; [by apply load_eq|]. split; [done|].
  split; [by apply save_eq|]. simpl.
  split; [done|]. split; [|split; [by rewrite <- app_assoc|done]].
  intros [doc Hdoc]. rewrite Hdoc. simpl. by apply insert_id.
Qed.

End more_lifecycle.


(** ** More on the composite key *)

Lemma str_break_Some c s l r :
  str_break c s = Some (l, r) →
  s = l +:+ String c r ∧ str_contains c l = false.
Proof.
  revert l. induction s as [|a s IH]; intros l; simpl; [done|].
  destruct (Ascii.eqb a c) eqn:Hac.
  - intros; simplify_eq. apply Ascii.eqb_eq in Hac as ->. done.
  - destruct (str_break c s) as [[l' r']|]; [|done].
    intros; simplify_eq. destruct (IH l' eq_refl) as [-> Hl].
    simpl. by rewrite Hac.
Qed.

Lemma str_break_None c s :
  str_break c s = None ↔ str_contains c s = false.
Proof.
  induction s as [|a s IH]; simpl; [done|].
  destruct (Ascii.eqb a c); [done|].
  destruct (str_break c s) as [[l r]|]; [|tauto].
  split; [done|]. intros Hs. by apply IH in Hs.
Qed.

Lemma str_count_app c a b :
  str_count c (a +:+ b) = str_count c a + str_count c b.
Proof.
  induction a as [|x a IH]; simpl; [done|]. rewrite IH. lia.
Qed.

Lemma str_count_contains c s :
  str_contains c s = false ↔ str_count c s = 0.
Proof.
  induction s as [|a s IH]; simpl; [done|].
  destruct (Ascii.eqb a c); [split; [done|lia]|]. by rewrite IH.
Qed.

Section more_keys.
Context {builtins : PyBuiltins}.
Import CompetencyMeasureEntity.

(** A key name is split exactly when it holds two separators; the parts
    then join back to the name, and the first two hold no separator. *)
Lemma split_key_name_Ok name a b c :
  split_key_name name = Ok (a, b, c) ↔
  name = join_key a b c
  ∧ str_contains SEP a = false ∧ str_contains SEP b = false.
Proof.
  split.
  - unfold split_key_name. simpl.
    destruct (str_break SEP name) as [[l r]|] eqn:H1; [|done].
    destruct (str_break SEP r) as [[l' r']|] eqn:H2; [|done].
    intros; simplify_eq.
    apply str_break_Some in H1 as [-> ?]. apply str_break_Some in H2 as [-> ?].
    done.
  - intros (-> & Ha & Hb). by apply split_key_name_join.
Qed.

(** X6. Decomposing a key name succeeds exactly when the name holds at
    least two separators, and raises [ValueError] otherwise; the three
    parts it returns join back to the name, and the first two hold no
    separator. *)
Theorem split_key_name_inverse (name : string) :
  (∀ a b c,
     split_key_name name = Ok (a, b, c) →
     name = join_key a b c
     ∧ str_contains SEP a = false ∧ str_contains SEP b = false)
  ∧ ((2 ≤ str_count SEP name)%nat ↔
     ∃ parts, split_key_name name = Ok parts)
  ∧ ((str_count SEP name < 2)%nat ↔
     split_key_name name = Raise ValueError).
Proof.
  split; [intros a b c; apply split_key_name_Ok|].
  unfold split_key_name. simpl.
  destruct (str_break SEP name) as [[l r]|] eqn:H1.
  - apply str_break_Some in H1 as [-> Hl].
    rewrite str_count_app, (proj1 (str_count_contains _ _) Hl). simpl.
    destruct (str_break SEP r) as [[l' r']|] eqn:H2.
    + apply str_break_Some in H2 as [-> Hl'].
      rewrite str_count_app. simpl.
      split; split; try done; try lia. intros _. by eexists.
    + apply str_break_None, str_count_contains in H2. rewrite H2.
      split; split; try done; try lia. by intros [? ?].
  - apply str_break_None, str_count_contains in H1. rewrite H1.
    split; split; try done; try lia. by intros [? ?].
Qed.

(** The parts of a key name that [create_key_name] returned. *)
Lemma create_key_name_split u s c key :
  create_key_name u s c = Ok key →
  split_key_name key = Ok (py_str u, py_str s, py_str c).
Proof.
  rewrite create_key_name_eq.
  destruct (str_contains SEP (py_str u)) eqn:Hu; [done|].
  destruct (str_contains SEP (py_str s)) eqn:Hs; [done|].
  destruct (str_contains SEP (py_str c)) eqn:Hc; [done|].
  simpl. intros [= <-]. by apply split_key_name_join.
Qed.

(** X7. Key names are unambiguous: when [create_key_name] returns the same
    key name for two triples, the two triples render to the same three
    components. *)
Theorem create_key_name_injective (u s c u' s' c' : pyval) (key : string) :
  create_key_name u s c = Ok key →
  create_key_name u' s' c' = Ok key →
  py_str u = py_str u' ∧ py_str s = py_str s' ∧ py_str c = py_str c'.
Proof.
  intros H1%create_key_name_split H2%create_key_name_split.
  rewrite H1 in H2. by simplify_eq.
Qed.

(** X8. [safe_key] rewrites the user id and nothing else: on the key of
    the triple (user, skill, class) it returns the key of the triple
    (transformed user, skill, class), provided the transformed user id
    holds no separator; and it passes on what the transformation
    raises. *)
Theorem safe_key_transforms_user (user_id skill_id class_name : string)
    (transform_fn : string → result string) :
  str_contains SEP user_id = false →
  str_contains SEP skill_id = false →
  str_contains SEP class_name = false →
  safe_key (from_path kind (join_key user_id skill_id class_name))
    transform_fn
  = match transform_fn user_id with
    | Ok user_id' =>
        if str_contains SEP user_id' then Raise AssertionError
        else Ok (from_path kind (join_key user_id' skill_id class_name))
    | Raise e => Raise e
    end.
Proof.
  intros Hu Hs Hc. unfold safe_key. simpl name.
  unfold join_key. rewrite split_key_name_join by done. simpl.
  destruct (transform_fn user_id) as [user_id'|e]; simpl; [|done].
  rewrite create_key_name_eq, !py_str_PStr, Hs, Hc, !orb_false_r.
  by destruct (str_contains SEP user_id').
Qed.

(** X9. [safe_key] rejects the key names it cannot rebuild: a name with
    fewer than two separators raises [ValueError] before the
    transformation is called, and a name with more than two raises
    [AssertionError] once the transformation has returned, the third part
    holding a separator. *)
Theorem safe_key_rejects (db_key : Key)
    (transform_fn : string → result string) :
  (split_key_name (name db_key) = Raise ValueError →
   safe_key db_key transform_fn = Raise ValueError)
  ∧ (∀ a b c user_id',
       split_key_name (name db_key) = Ok (a, b, c) →
       str_contains SEP c = true →
       transform_fn a = Ok user_id' →
       safe_key db_key transform_fn = Raise AssertionError).
Proof.
  unfold safe_key. split.
  - by intros ->.
  - intros a b c user_id' -> Hc Hf. simpl. rewrite Hf. simpl.
    rewrite create_key_name_eq, !py_str_PStr, Hc, !orb_true_r. done.
Qed.

End more_keys.


(** ** More on the event ingestors *)

(** X10. A question group with more sub-question ids than scores, or more
    scores than ids, loses the surplus without an error: the pairs are as
    many as the shorter of the two lists, and the i-th pair couples the
    i-th id with the i-th score. *)
Theorem single_item_group_truncates (item : gmap string pyval)
    (quids individualScores : list pyval) :
  item !! "type" = Some (PStr "QuestionGroup") →
  item !! "quids" = Some (PList quids) →
  item !! "individualScores" = Some (PList individualScores) →
  ∃ question_scores,
    _get_questions_scores_from_single_item (PDict item) = Ok question_scores
    ∧ length question_scores
      = Nat.min (length quids) (length individualScores)
    ∧ ∀ i a_quid a_score,
        quids !! i = Some a_quid →
        individualScores !! i = Some a_score →
        question_scores !! i = Some (Build_QuestionScore a_quid a_score).
Proof.
  intros Htype Hquids Hscores. eexists. split.
  - unfold _get_questions_scores_from_single_item. simpl.
    rewrite Htype. simpl. rewrite Hquids, Hscores. simpl.
    by rewrite map_zip_QuestionScore.
  - split; [apply length_zip_with|].
    intros i a_quid a_score Hq Hs. rewrite lookup_zip_with, Hq. simpl.
    by rewrite Hs.
Qed.

(** X11. A payload of the wrong shape raises rather than yielding pairs: a
    single item that is no JSON object raises [TypeError] and one without
    the key [type] raises [KeyError]; a multi-item payload that is neither
    an object nor a list raises [TypeError], and an object without the key
    [quids] or the key [individualScores] raises [KeyError]. *)
Theorem ingestors_reject_malformed (data : pyval) :
  (match data with
   | PDict item =>
       item !! "type" = None →
       _get_questions_scores_from_single_item data = Raise KeyError
   | _ => _get_questions_scores_from_single_item data = Raise TypeError
   end)
  ∧ (match data with
     | PList _ => _get_questions_scores_from_many_items data = Ok []
     | PDict item =>
         item !! "quids" = None ∨ item !! "individualScores" = None →
         _get_questions_scores_from_many_items data = Raise KeyError
     | _ => _get_questions_scores_from_many_items data = Raise TypeError
     end).
Proof.
  unfold _get_questions_scores_from_single_item,
    _get_questions_scores_from_many_items.
  destruct data as [| | | | | |item]; simpl; try done. split.
  - by intros ->.
  - intros [->| ->]; [done|]. by destruct (item !! "quids").
Qed.

Section many_items.
Variables quids scores : gmap string pyval.

(** The loop over the instance ids, one id at a time. *)
Lemma many_items_loop_keys (keys : list string) : ∀ acc,
  many_items_loop (PDict quids) (PDict scores) (PStr <$> keys) acc
  = match keys with
    | [] => Ok acc
    | k :: keys' =>
        match quids !! k with
        | None => Raise KeyError
        | Some a_quid =>
            match scores !! k with
            | None => Raise KeyError
            | Some a_score =>
                pairs <- instance_pairs a_quid a_score ;;
                many_items_loop (PDict quids) (PDict scores)
                  (PStr <$> keys') (acc ++ pairs)
            end
        end
    end.
Proof.
  destruct keys as [|k keys']; intros acc; simpl; [done|].
  destruct (quids !! k) as [a_quid|]; simpl; [|done].
  destruct (scores !! k) as [a_score|]; simpl; [|done].
  unfold instance_pairs. destruct (is_basestring a_quid); simpl; [done|].
  by destruct (py_zip a_quid a_score).
Qed.

(** When every instance id has a score and well-shaped contents, the loop
    returns the pairs of the ids one after the other. *)
Lemma many_items_loop_Ok (keys : list string) : ∀ acc,
  (∀ k, k ∈ keys →
     ∃ a_quid a_score pairs,
       quids !! k = Some a_quid ∧ scores !! k = Some a_score
       ∧ instance_pairs a_quid a_score = Ok pairs) →
  ∃ question_scores,
    many_items_loop (PDict quids) (PDict scores) (PStr <$> keys) acc
    = Ok (acc ++ question_scores)
    ∧ ∀ x, x ∈ question_scores ↔
        ∃ k a_quid a_score pairs,
          k ∈ keys ∧ quids !! k = Some a_quid ∧ scores !! k = Some a_score
          ∧ instance_pairs a_quid a_score = Ok pairs ∧ x ∈ pairs.
Proof.
  induction keys as [|k keys IH]; intros acc Hkeys.
  - exists []. rewrite app_nil_r. split; [done|]. intros x. split.
    + by intros ?%elem_of_nil.
    + by intros (? & ? & ? & ? & ?%elem_of_nil & _).
  - rewrite many_items_loop_keys.
    destruct (Hkeys k) as (a_quid & a_score & pairs & Hq & Hs & Hp);
      [by left|].
    rewrite Hq, Hs, Hp. simpl.
    destruct (IH (acc ++ pairs)) as (rest & -> & Hrest).
    { intros k' Hk'. apply Hkeys. by right. }
    exists (pairs ++ rest). rewrite app_assoc. split; [done|].
    intros x. rewrite elem_of_app, Hrest. split.
    + intros [Hx|(k' & q' & s' & p' & Hk' & ?)].
      * exists k, a_quid, a_score, pairs. repeat split; try done. by left.
      * exists k', q', s', p'. split; [by right|done].
    + intros (k' & q' & s' & p' & Hk' & Hq' & Hs' & Hp' & Hx).
      apply elem_of_cons in Hk' as [->|Hk'].
      * left. assert (q' = a_quid) as -> by congruence.
        assert (s' = a_score) as -> by congruence.
        assert (p' = pairs) as -> by congruence. done.
      * right. by exists k', q', s', p'.
Qed.

(** The loop raises [KeyError] when the quids are all questions and some
    instance id has no score. *)
Lemma many_items_loop_KeyError (keys : list string) : ∀ acc,
  (∀ k, k ∈ keys → ∃ a_quid,
     quids !! k = Some a_quid ∧ is_basestring a_quid = true) →
  (∃ k, k ∈ keys ∧ scores !! k = None) →
  many_items_loop (PDict quids) (PDict scores) (PStr <$> keys) acc
  = Raise KeyError.
Proof.
  induction keys as [|k keys IH]; intros acc Hquids (k0 & Hk0 & Hnone).
  - by apply elem_of_nil in Hk0.
  - rewrite many_items_loop_keys.
    destruct (Hquids k) as (a_quid & -> & Hstr); [by left|].
    destruct (scores !! k) as [a_score|] eqn:Hs; [|done].
    unfold instance_pairs. rewrite Hstr. simpl. apply IH.
    + intros k' Hk'. apply Hquids. by right.
    + exists k0. split; [|done].
      apply elem_of_cons in Hk0 as [->|]; [congruence|done].
Qed.

(** X12. A multi-item payload in the versioned format yields, for every
    instance id, the pair of its question and its score, or the zipped
    pairs of its group: a pair is in the result exactly when some instance
    id contributes it.  With questions only, the pairs are as many as the
    instance ids. *)
Theorem many_items_question_scores (payload : gmap string pyval) :
  payload !! "quids" = Some (PDict quids) →
  payload !! "individualScores" = Some (PDict scores) →
  (∀ k a_quid, quids !! k = Some a_quid →
     ∃ a_score pairs,
       scores !! k = Some a_score
       ∧ instance_pairs a_quid a_score = Ok pairs) →
  ∃ question_scores,
    _get_questions_scores_from_many_items (PDict payload)
    = Ok question_scores
    ∧ (∀ x, x ∈ question_scores ↔
         ∃ k a_quid a_score pairs,
           quids !! k = Some a_quid ∧ scores !! k = Some a_score
           ∧ instance_pairs a_quid a_score = Ok pairs ∧ x ∈ pairs)
    ∧ ((∀ k a_quid, quids !! k = Some a_quid →
          is_basestring a_quid = true) →
       length question_scores = size quids).
Proof.
  intros Hquids Hscores Hall.
  unfold _get_questions_scores_from_many_items. simpl.
  rewrite Hquids, Hscores. simpl.
  set (keys := (map_to_list quids).*1).
  assert (Hkeys : ∀ k, k ∈ keys ↔ is_Some (quids !! k)).
  { intros k. unfold keys. rewrite list_elem_of_fmap. split.
    - intros ([k' v] & -> & Hin%elem_of_map_to_list). by eexists.
    - intros [v Hv]. exists (k, v). by rewrite elem_of_map_to_list. }
  destruct (many_items_loop_Ok keys []) as (qs & Hrun & Hqs).
  { intros k [a_quid Hq]%Hkeys.
    destruct (Hall _ _ Hq) as (a_score & pairs & ? & ?).
    by exists a_quid, a_score, pairs. }
  exists qs. split; [exact Hrun|]. split.
  - intros x. rewrite Hqs. split.
    + intros (k & q & s & p & _ & ?). by exists k, q, s, p.
    + intros (k & q & s & p & Hq & ?). exists k, q, s, p.
      split; [|done]. apply Hkeys. by eexists.
  - intros Hflat. clear Hqs. simpl in Hrun.
    assert (Hlen : ∀ ks acc qs',
              (∀ k, k ∈ ks → is_Some (quids !! k)) →
              many_items_loop (PDict quids) (PDict scores) (PStr <$> ks) acc
              = Ok qs' → length qs' = length acc + length ks).
    { induction ks as [|k ks IH]; intros acc qs' Hks; simpl.
      - intros; simplify_eq. lia.
      - destruct (Hks k) as [a_quid Hq]; [by left|]. rewrite Hq. simpl.
        destruct (scores !! k) as [a_score|]; simpl; [|done].
        rewrite (Hflat _ _ Hq). intros Hrun'%IH.
        + rewrite Hrun', length_app. simpl. lia.
        + intros k' ?. apply Hks. by right. }
    rewrite (Hlen keys [] qs); [|by intros k ?%Hkeys|done].
    unfold keys. by rewrite length_fmap, length_map_to_list.
Qed.

(** X13. A multi-item payload of questions in which some instance id has
    no score raises [KeyError]: no pair is returned for the other instance
    ids either. *)
Theorem many_items_missing_score (payload : gmap string pyval)
    (instanceid : string) :
  payload !! "quids" = Some (PDict quids) →
  payload !! "individualScores" = Some (PDict scores) →
  (∀ k a_quid, quids !! k = Some a_quid → is_basestring a_quid = true) →
  is_Some (quids !! instanceid) →
  scores !! instanceid = None →
  _get_questions_scores_from_many_items (PDict payload) = Raise KeyError.
Proof.
  intros Hquids Hscores Hflat [a_quid Hq] Hnone.
  unfold _get_questions_scores_from_many_items. simpl.
  rewrite Hquids, Hscores. simpl. apply many_items_loop_KeyError.
  - intros k ([k' v] & -> & Hin%elem_of_map_to_list)%list_elem_of_fmap.
    exists v. split; [done|]. by eapply Hflat.
  - exists instanceid. split; [|done]. apply list_elem_of_fmap.
    exists (instanceid, a_quid). by rewrite elem_of_map_to_list.
Qed.

End many_items.


(** ** The registry and the updater *)

Section registry.
Context {builtins : PyBuiltins}.
Import CompetencyMeasureDto.

Lemma load_measures_eq uid skill_id (key : MeasureClass → string) classes :
  ∀ acc w,
  Forall (fun cls =>
            CompetencyMeasureEntity.create_key_name (PStr uid) skill_id
              (PStr (__name__ cls)) = Ok (key cls)) classes →
  Registry.load_measures uid skill_id classes acc w
  = (World (docs w) (registry w)
       (trace w ++ map (fun cls => DaoLoad (key cls)) classes),
     Ok (acc ++ map (fun cls => (cls, loaded w uid (key cls))) classes)).
Proof.
  induction classes as [|cls classes IH]; intros acc w Hkeys; simpl.
  - rewrite !app_nil_r. by destruct w.
  - apply Forall_cons in Hkeys as [Hkey Hkeys]. unfold sbind at 1.
    rewrite (load_eq cls skill_id (BaseCompetencyMeasure.__init__ uid)
               (key cls) w Hkey).
    rewrite IH by done. simpl.
    by rewrite <- !app_assoc.
Qed.

(** X14. [get_updater] loads one instance of every registered class, in
    the order of registration: each instance holds the document stored
    under the key of its class, or an empty one; the store is read once
    per class and not written. *)
Theorem get_updater_loads_each_class (uid : string) (skill_id : pyval)
    (key : MeasureClass → string) (w : world) :
  Forall (fun cls =>
            CompetencyMeasureEntity.create_key_name (PStr uid) skill_id
              (PStr (__name__ cls)) = Ok (key cls)) (registry w) →
  Registry.get_updater uid skill_id w
  = (World (docs w) (registry w)
       (trace w ++ map (fun cls => DaoLoad (key cls)) (registry w)),
     Ok (map (fun cls => (cls, loaded w uid (key cls))) (registry w))).
Proof.
  intros Hkeys. unfold Registry.get_updater.
  by rewrite (load_measures_eq _ _ key).
Qed.

(** X15. A user id or a skill id with a separator makes [get_updater]
    raise [AssertionError] at the first registered class, before anything
    is read from the store; with no class registered it returns an empty
    updater all the same. *)
Theorem get_updater_rejects_separator (uid : string) (skill_id : pyval)
    (w : world) :
  str_contains SEP uid = true ∨ str_contains SEP (py_str skill_id) = true →
  Registry.get_updater uid skill_id w
  = match registry w with
    | [] => (w, Ok [])
    | _ :: _ => (w, Raise AssertionError)
    end.
Proof.
  intros Hsep. unfold Registry.get_updater.
  destruct (registry w) as [|cls classes]; simpl; [done|].
  unfold sbind, BaseCompetencyMeasure.load, lift. simpl.
  rewrite create_key_name_eq, py_str_PStr.
  by destruct Hsep as [-> | ->]; rewrite ?orb_true_r.
Qed.

(** X16. [_Updater.update] passes the score on to every measure of the
    updater, in order and with no optional argument: it succeeds exactly
    when the [update] of every measure does, and the updater then holds
    the updated measures, each with its class. *)
Theorem updater_update_fans_out (normalized_score : pyval)
    (updater updater' : Registry._Updater) :
  Registry._Updater_update normalized_score updater = (updater', Ok tt) ↔
  Forall2 (fun cm cm' =>
             cm'.1 = cm.1
             ∧ update cm.1 normalized_score no_kwargs cm.2 = (cm'.2, Ok tt))
    updater updater'.
Proof.
  revert updater'.
  induction updater as [|[cls m] updater IH]; intros updater'; simpl.
  - split.
    + intros; simplify_eq. constructor.
    + by intros ->%Forall2_nil_inv_l.
  - destruct (update cls normalized_score no_kwargs m) as [m' [[]|e]] eqn:Hup.
    + destruct (Registry._Updater_update normalized_score updater)
        as [rest' r] eqn:Hrest. split.
      * intros; simplify_eq. constructor; [done|]. by apply IH.
      * intros ([cls'' m''] & rest'' & [Hcls Hm] & Hall & ->)%Forall2_cons_inv_l.
        simpl in *. subst cls''. rewrite Hup in Hm. simplify_eq.
        apply IH in Hall. by simplify_eq.
    + split; [done|].
      intros ([cls'' m''] & rest'' & [Hcls Hm] & _ & ->)%Forall2_cons_inv_l.
      simpl in *. congruence.
Qed.

(** X28. [_Updater.update] stops at the first measure whose [update]
    raises and raises the same exception: the measures before that one
    are updated, the ones after it are not called. *)
Theorem updater_update_raises normalized_score updater updater' e :
  Registry._Updater_update normalized_score updater = (updater', Raise e) →
  ∃ done_ cls m m' rest,
    updater = done_ ++ (cls, m) :: rest
    ∧ update cls normalized_score no_kwargs m = (m', Raise e)
    ∧ ∃ done', updater' = done' ++ (cls, m') :: rest
               ∧ Registry._Updater_update normalized_score done_
                 = (done', Ok tt).
Proof.
  revert updater'.
  induction updater as [|[cls m] updater IH]; intros updater'; simpl; [done|].
  destruct (update cls normalized_score no_kwargs m) as [m' [[]|e']] eqn:Hup.
  - destruct (Registry._Updater_update normalized_score updater)
      as [rest' r] eqn:Hrest.
    intros; simplify_eq.
    destruct (IH _ eq_refl) as (d & c & x & x' & rest & -> & Hx & d' & -> & Hd).
    exists ((cls, m) :: d), c, x, x', rest. split; [done|]. split; [done|].
    exists ((cls, m') :: d'). split; [done|]. simpl. by rewrite Hup, Hd.
  - intros; simplify_eq. exists [], cls, m, m', updater.
    split; [done|]. split; [done|]. by exists [].
Qed.

(** X17. [_Updater.save] stores the document of every measure, in order,
    and consumes the measures: afterwards none holds a document, so a
    second [save] of a non-empty updater raises [AssertionError] and
    leaves the store as the first one left it. *)
Theorem updater_save_consumes (updater updater' : Registry._Updater)
    (w w' : world) :
  Registry._Updater_save updater w = (w', Ok updater') →
  (∃ ds, (dto ∘ snd) <$> updater = Some <$> ds ∧ w' = saved ds w)
  ∧ updater' = (fun cm => (cm.1, Measure None (user_id cm.2))) <$> updater
  ∧ (updater ≠ [] →
     Registry._Updater_save updater' w' = (w', Raise AssertionError)).
Proof.
  revert updater' w.
  induction updater as [|[cls m] updater IH]; intros updater' w; simpl.
  - unfold sret. intros; simplify_eq. split; [|done].
    exists []. split; [done|]. unfold saved. simpl.
    rewrite app_nil_r. by destruct w'.
  - unfold sbind at 1. destruct (dto m) as [d|] eqn:Hd.
    2:{ by rewrite (save_None _ _ Hd). }
    rewrite (save_eq _ _ _ Hd). unfold sbind at 1.
    destruct (Registry._Updater_save updater _) as [w1 [rest'|e]] eqn:Hrest;
      [|done].
    unfold sret. intros; simplify_eq.
    destruct (IH _ _ Hrest) as ((ds & Hds & ->) & -> & _).
    split; [|split; [done|]].
    + exists (d :: ds). split.
      * rewrite !fmap_cons. simpl. rewrite ?Hd. f_equal. exact Hds.
      * unfold saved. simpl. by rewrite <- app_assoc.
    + intros _. simpl. unfold sbind at 1. by rewrite save_None.
Qed.

(** X18. With no measure class registered, updating and saving are
    no-ops: the updater is empty, and recording the scores of any number
    of skills changes nothing and calls the store not once. *)
Theorem empty_registry_is_noop {collaborators : Collaborators}
    (user : User) (items : defaultdict) (w : world) :
  registry w = [] →
  record_scores user items w = (w, Ok tt)
  ∧ (∀ uid skill_id, Registry.get_updater uid skill_id w = (w, Ok []))
  ∧ (∀ normalized_score,
       Registry._Updater_update normalized_score [] = ([], Ok tt))
  ∧ Registry._Updater_save [] w = (w, Ok []).
Proof.
  intros Hreg. split; [|split; [|done]].
  - induction items as [|[skill_id scores] items IH]; simpl; [done|].
    unfold sbind at 1. unfold Registry.get_updater. rewrite Hreg. simpl.
    assert (Hall : update_all scores [] = Ok []).
    { induction scores as [|s scores IHs]; simpl; done. }
    rewrite Hall. unfold sbind, lift, sret. simpl. exact IH.
  - intros uid skill_id. unfold Registry.get_updater. by rewrite Hreg.
Qed.

End registry.


(** ** More on the event listener *)

Section more_listener.
Context {builtins : PyBuiltins} {collaborators : Collaborators}.

(** X19. What the decoder or an ingestor raises on a recognized event
    reaches the caller of the listener, and the state is as it was: no
    question was looked up and no document read. *)
Theorem listener_propagates_decoding_errors (source : string) (user : User)
    (data : string) (e : exn) (w : world) :
  source = "tag-assessment" ∨ source = "attempt-lesson"
  ∨ source = "submit-assessment" →
  loads data = Raise e
  ∨ question_scores_of_event source data = Some (Raise e) →
  record_event_listener source user data w = (w, Raise e).
Proof.
  intros Hsource Hraise. rewrite record_event_listener_eq.
  assert (Hevent : question_scores_of_event source data = Some (Raise e)).
  { destruct Hraise as [Hloads|]; [|done].
    unfold question_scores_of_event.
    destruct Hsource as [->|[->| ->]]; simpl; by rewrite Hloads. }
  by rewrite Hevent.
Qed.

(** X20. A submitted assessment is handled as a graded lesson whose
    payload is the value under the key [values] of the submission; a
    submission that is a JSON object without that key raises
    [KeyError]. *)
Theorem submit_assessment_as_attempt_lesson (user : User)
    (data : string) (submission : gmap string pyval) (w : world) :
  loads data = Ok (PDict submission) →
  match submission !! "values" with
  | Some values =>
      ∀ data', loads data' = Ok values →
        record_event_listener "submit-assessment" user data w
        = record_event_listener "attempt-lesson" user data' w
  | None =>
      record_event_listener "submit-assessment" user data w
      = (w, Raise KeyError)
  end.
Proof.
  intros Hloads.
  destruct (submission !! "values") as [values|] eqn:Hvalues.
  - intros data' Hloads'. rewrite !record_event_listener_eq.
    unfold question_scores_of_event. simpl.
    rewrite Hloads, Hloads'. simpl. by rewrite Hvalues.
  - rewrite record_event_listener_eq. unfold question_scores_of_event.
    simpl. rewrite Hloads. simpl. by rewrite Hvalues.
Qed.




End more_listener.


(** ** What the listener leaves alone *)

Section frames.
Context {builtins : PyBuiltins} {collaborators : Collaborators}.
Import CompetencyMeasureDto.

Lemma extends_refl w : extends w w.
Proof. by repeat split. Qed.

Lemma extends_trans w1 w2 w3 : extends w1 w2 → extends w2 w3 → extends w1 w3.
Proof.
  intros (Hr1 & Hd1 & Ht1) (Hr2 & Hd2 & Ht2). repeat split.
  - congruence.
  - by etrans.
  - by etrans.
Qed.

Lemma only_user_changed_refl uid w : only_user_changed uid w w.
Proof. by intros key _. Qed.

Lemma only_user_changed_trans uid w1 w2 w3 :
  only_user_changed uid w1 w2 → only_user_changed uid w2 w3 →
  only_user_changed uid w1 w3.
Proof. intros H12 H23 key Hkey. by rewrite H23, H12. Qed.

Lemma only_user_changed_docs uid w w' :
  docs w' = docs w → only_user_changed uid w w'.
Proof. intros Hdocs key _. by rewrite Hdocs. Qed.

(** A successful [load] read the document under the key of the instance
    and wrote nothing. *)
Lemma load_inv cls skill_id self w w' m :
  BaseCompetencyMeasure.load cls skill_id self w = (w', Ok m) →
  ∃ key,
    CompetencyMeasureEntity.create_key_name (PStr (user_id self)) skill_id
      (PStr (__name__ cls)) = Ok key
    ∧ w' = World (docs w) (registry w) (trace w ++ [DaoLoad key])
    ∧ m = loaded w (user_id self) key.
Proof.
  destruct (CompetencyMeasureEntity.create_key_name (PStr (user_id self))
              skill_id (PStr (__name__ cls))) as [key|e] eqn:Hkey.
  - rewrite (load_eq _ _ _ _ _ Hkey). intros; simplify_eq. by exists key.
  - unfold BaseCompetencyMeasure.load, sbind, lift. by rewrite Hkey.
Qed.

Lemma create_key_name_prefix uid skill_id class_name key :
  CompetencyMeasureEntity.create_key_name (PStr uid) skill_id class_name
  = Ok key →
  ∃ rest, key = uid +:+ ":" +:+ rest.
Proof.
  rewrite create_key_name_eq, py_str_PStr.
  destruct (_ || _); [done|]. intros [= <-]. by eexists.
Qed.

(** The loop of [get_updater] reads and does not write; the measures it
    adds are loaded for the user. *)
Lemma load_measures_frame uid skill_id classes : ∀ acc w w' r,
  Registry.load_measures uid skill_id classes acc w = (w', r) →
  docs w' = docs w ∧ extends w w'
  ∧ ∀ updater all, r = Ok updater →
      updater_of uid all acc → classes ⊆ all →
      updater_of uid all updater.
Proof.
  induction classes as [|cls classes IH]; intros acc w w' r; simpl.
  - unfold sret. intros [= <- <-]. split; [done|].
    split; [apply extends_refl|]. by intros ? ? [= <-].
  - unfold sbind at 1.
    destruct (BaseCompetencyMeasure.load _ _ _ w) as [w1 [m|e]] eqn:Hload.
    + apply load_inv in Hload as (key & Hkey & -> & ->).
      intros (Hdocs & Hext & Hup)%IH. simpl in *.
      split; [done|]. split.
      * eapply extends_trans; [|exact Hext].
        repeat split; simpl; [done|]. by apply prefix_app_r.
      * intros updater all -> Hacc Hsub. apply (Hup _ all eq_refl).
        -- apply Forall_app. split; [done|]. apply Forall_singleton.
           split; [apply Hsub; by left|]. simpl. intros d [= <-]. simpl.
           by eapply create_key_name_prefix.
        -- intros x ?. apply Hsub. by right.
    + apply load_raise in Hload as [-> ->]. intros [= <- <-].
      split; [done|]. split; [apply extends_refl|done].
Qed.

(** [_Updater.update] keeps an updater one for the user, when its classes
    leave the keys of the documents alone. *)
Lemma updater_update_keeps uid classes normalized_score :
  Forall keeps_id classes →
  ∀ updater updater' r,
  Registry._Updater_update normalized_score updater = (updater', r) →
  updater_of uid classes updater → updater_of uid classes updater'.
Proof.
  intros Hkeeps. induction updater as [|[cls m] updater IH];
    intros updater' r; simpl.
  - by intros [= <- <-].
  - intros Hrun [[Hcls Hm] Hrest]%Forall_cons. simpl in *.
    assert (Hcm : ∀ m' r', update cls normalized_score no_kwargs m = (m', r') →
              cls ∈ classes
              ∧ ∀ d, dto m' = Some d → ∃ rest, _id d = uid +:+ ":" +:+ rest).
    { intros m' r' Hup. split; [done|]. intros d' Hd'.
      pose proof (proj1 (Forall_forall _ _) Hkeeps cls Hcls _ _ _ _ _ Hup)
        as Hid.
      rewrite Hd' in Hid. simpl in Hid.
      destruct (dto m) as [d|]; [|done]. simpl in Hid. simplify_eq.
      destruct (Hm d eq_refl) as [rest Hrest']. exists rest. congruence. }
    destruct (update cls normalized_score no_kwargs m) as [m' [[]|e]] eqn:Hup.
    + destruct (Registry._Updater_update normalized_score updater)
        as [rest' r''] eqn:Hrest'.
      simplify_eq. apply Forall_cons. split; [by eapply Hcm|by eapply IH].
    + simplify_eq. apply Forall_cons. split; [by eapply Hcm|done].
Qed.

Lemma update_all_keeps uid classes scores :
  Forall keeps_id classes →
  ∀ updater updater',
  update_all scores updater = Ok updater' →
  updater_of uid classes updater → updater_of uid classes updater'.
Proof.
  intros Hkeeps. induction scores as [|s scores IH];
    intros updater updater'; simpl.
  - by intros [= <-].
  - destruct (Registry._Updater_update s updater) as [u1 [[]|e]] eqn:Hup;
      [|done].
    intros Hrun Hu. eapply IH; [exact Hrun|].
    by eapply updater_update_keeps.
Qed.

(** [_Updater.save] adds and replaces documents, under the keys of the
    documents that the measures hold, and deletes none. *)
Lemma updater_save_frame updater : ∀ w w' r,
  Registry._Updater_save updater w = (w', r) →
  extends w w'
  ∧ ∀ key,
      (∀ cm d, cm ∈ updater → dto cm.2 = Some d → key ≠ _id d) →
      docs w' !! key = docs w !! key.
Proof.
  induction updater as [|[cls m] updater IH]; intros w w' r; simpl.
  - unfold sret. intros [= <- <-]. split; [apply extends_refl|done].
  - unfold sbind at 1. destruct (dto m) as [d|] eqn:Hd.
    2:{ rewrite (save_None _ _ Hd). intros [= <- <-].
        split; [apply extends_refl|done]. }
    rewrite (save_eq _ _ _ Hd). unfold sbind at 1.
    assert (Hstep : ∀ w1 r1,
              Registry._Updater_save updater
                (World (<[_id d := dict d]> (docs w)) (registry w)
                   (trace w ++ [DaoSave (_id d)])) = (w1, r1) →
              extends w w1
              ∧ ∀ key,
                  (∀ cm d', cm ∈ (cls, m) :: updater →
                     dto cm.2 = Some d' → key ≠ _id d') →
                  docs w1 !! key = docs w !! key).
    { intros w1 r1 [Hext Hkeys]%IH. split.
      - eapply extends_trans; [|exact Hext].
        repeat split; simpl; [|by apply prefix_app_r].
        rewrite dom_insert_L. apply union_subseteq_r.
      - intros key Hkey. rewrite Hkeys; simpl.
        + apply lookup_insert_ne. intros <-.
          by apply (Hkey (cls, m) d); [left| |].
        + intros cm d' Hin. apply Hkey. by right. }
    destruct (Registry._Updater_save updater _) as [w1 [rest'|e]] eqn:Hrest;
      unfold sret; intros [= <- <-]; by eapply Hstep.
Qed.

(** The keys that an updater for a user writes start with the user id. *)
Lemma updater_of_keys uid classes updater key :
  updater_of uid classes updater →
  (∀ rest, key ≠ uid +:+ ":" +:+ rest) →
  ∀ cm d, cm ∈ updater → dto cm.2 = Some d → key ≠ _id d.
Proof.
  intros Hu Hkey cm d Hin Hd ->.
  destruct (proj1 (Forall_forall _ _) Hu cm Hin) as [_ Hprefix].
  destruct (Hprefix d Hd) as [rest Hrest]. by apply (Hkey rest).
Qed.

(** The second loop of the listener, for any registry. *)
Lemma record_scores_frame user items : ∀ w w' r,
  record_scores user items w = (w', r) →
  extends w w'
  ∧ (Forall keeps_id (registry w) →
     only_user_changed (User_user_id user) w w').
Proof.
  induction items as [|[skill_id scores] items IH]; intros w w' r; simpl.
  - unfold sret. intros [= <- <-].
    split; [apply extends_refl|]. intros _. apply only_user_changed_refl.
  - unfold sbind at 1. unfold Registry.get_updater.
    destruct (Registry.load_measures _ _ _ _ w) as [w1 [u|e]] eqn:Hload.
    2:{ intros [= <- <-].
        apply load_measures_frame in Hload as (Hdocs & Hext & _).
        split; [done|]. intros _. by apply only_user_changed_docs. }
    apply load_measures_frame in Hload as (Hdocs1 & Hext1 & Hu).
    unfold sbind at 1, lift.
    destruct (update_all scores u) as [u'|e] eqn:Hall.
    2:{ intros [= <- <-]. split; [done|]. intros _.
        by apply only_user_changed_docs. }
    assert (Hu' : Forall keeps_id (registry w) →
              updater_of (User_user_id user) (registry w) u').
    { intros Hkeeps. eapply update_all_keeps; [done|exact Hall|].
      apply (Hu _ _ eq_refl); [constructor|done]. }
    unfold sbind at 1.
    destruct (Registry._Updater_save u' w1) as [w2 [u''|e]] eqn:Hsave;
      apply updater_save_frame in Hsave as [Hext2 Hkeys].
    + intros [Hext3 Honly]%IH.
      split; [by eapply extends_trans; [|eapply extends_trans]|].
      intros Hkeeps.
      apply (only_user_changed_trans _ _ w1);
        [by apply only_user_changed_docs|].
      apply (only_user_changed_trans _ _ w2).
      * intros key Hkey. apply Hkeys. by eapply updater_of_keys; [apply Hu'|].
      * apply Honly. destruct Hext1 as [Hr1 _]. destruct Hext2 as [Hr2 _].
        by rewrite Hr2, Hr1.
    + intros [= <- <-].
      split; [by eapply extends_trans|]. intros Hkeeps.
      apply (only_user_changed_trans _ _ w1);
        [by apply only_user_changed_docs|].
      intros key Hkey. apply Hkeys. by eapply updater_of_keys; [apply Hu'|].
Qed.

(** The listener, for any registry. *)
Lemma record_event_listener_frame source user data w w' r :
  record_event_listener source user data w = (w', r) →
  extends w w'
  ∧ (Forall keeps_id (registry w) →
     only_user_changed (User_user_id user) w w').
Proof.
  rewrite record_event_listener_eq.
  destruct (question_scores_of_event source data) as [[qss|e]|].
  2,3: intros [= <- <-]; split; [apply extends_refl|];
       intros _; apply only_user_changed_refl.
  unfold record_question_scores, sbind.
  destruct (group_scores qss [] w) as [w1 [d|e]] eqn:Hgroup;
    apply group_scores_frame in Hgroup as (Hdocs & Hreg & quids & Htrace).
  - intros [Hext Honly]%record_scores_frame. split.
    + eapply extends_trans; [|exact Hext]. repeat split; [done|by rewrite Hdocs|].
      rewrite Htrace. by apply prefix_app_r.
    + intros Hkeeps.
      apply (only_user_changed_trans _ _ w1);
        [by apply only_user_changed_docs|].
      apply Honly. by rewrite Hreg.
  - intros [= <- <-]. split.
    + repeat split; [done|by rewrite Hdocs|].
      rewrite Htrace. by apply prefix_app_r.
    + intros _. by apply only_user_changed_docs.
Qed.

(** X22. Whatever the event, the registered classes and however the call
    ends, the listener deletes no document, leaves the registry as it was
    and only adds to the log of the datastore calls. *)
Theorem listener_never_deletes (source : string) (user : User)
    (data : string) (w : world) :
  extends w (record_event_listener source user data w).1.
Proof.
  destruct (record_event_listener source user data w) as [w' r] eqn:Hrun.
  by apply record_event_listener_frame in Hrun as [? _].
Qed.

End frames.


(** ** One user, one skill *)

Section isolation.
Context {builtins : PyBuiltins} {collaborators : Collaborators}.
Import CompetencyMeasureDto.

Lemma base_keeps_id : keeps_id BaseCompetencyMeasure.class.
Proof.
  intros normalized_score kw self self' r. simpl.
  unfold BaseCompetencyMeasure.update, assert_dto_is_not_None, dto_mutate,
    append_event. unfold_M.
  destruct (dto self) as [d|] eqn:Hd; simpl;
    [|intros [= <- <-]; by rewrite Hd].
  destruct (dict d !! "events") as [[]|]; simpl; intros [= <- <-];
    by rewrite ?Hd.
Qed.

Lemma update_summary_keeps_id normalized_score self self' r :
  update_summary normalized_score self = (self', r) →
  _id <$> dto self' = _id <$> dto self.
Proof.
  unfold update_summary, dto_call, dto_mutate, get_data, set_data, py_add1,
    py_or, rbind. unfold_M.
  destruct (dto self) as [d|] eqn:Hd; simpl;
    [|intros [= <- <-]; by rewrite Hd].
  repeat (case_match; simplify_eq; simpl in *; try done);
    intros [= <- <-]; by rewrite ?Hd.
Qed.

Lemma success_rate_keeps_id : keeps_id SuccessRateCompetencyMeasure.class.
Proof.
  intros normalized_score kw self self' r. simpl. rewrite update_unfold.
  unfold sbind at 1.
  destruct (BaseCompetencyMeasure.update normalized_score kw self)
    as [self1 [[]|e]] eqn:Hbase.
  - intros Hsum%update_summary_keeps_id. rewrite Hsum.
    by apply (base_keeps_id _ _ _ _ _ Hbase).
  - intros [= <- <-]. by apply (base_keeps_id _ _ _ _ _ Hbase).
Qed.

(** X23. An event of a user changes only documents of that user: when the
    registered classes leave the keys of their documents alone, as the
    base class and the success rate measure do, every document whose key
    does not start with the user id and a separator is as it was after
    the listener returns or raises. *)
Theorem listener_changes_only_the_user (source : string) (user : User)
    (data : string) (w : world) :
  (keeps_id BaseCompetencyMeasure.class
   ∧ keeps_id SuccessRateCompetencyMeasure.class)
  ∧ (Forall keeps_id (registry w) →
     only_user_changed (User_user_id user) w
       (record_event_listener source user data w).1).
Proof.
  split; [split; [apply base_keeps_id|apply success_rate_keeps_id]|].
  intros Hkeeps.
  destruct (record_event_listener source user data w) as [w' r] eqn:Hrun.
  apply record_event_listener_frame in Hrun as [_ Honly]. by apply Honly.
Qed.

(** The scores of one skill, fed to an updater of one measure. *)
Lemma update_all_single cls scores : ∀ m,
  update_all scores [(cls, m)]
  = match updates cls (map (fun s => (s, no_kwargs)) scores) m with
    | (m', Ok _) => Ok [(cls, m')]
    | (_, Raise e) => Raise e
    end.
Proof.
  induction scores as [|s scores IH]; intros m; simpl; [done|].
  unfold sbind.
  destruct (update cls s no_kwargs m) as [m' [[]|e]]; [|done]. apply IH.
Qed.

(** X24. With the success rate measure registered, the N scores of one
    skill are recorded in one load, N updates and one save: the store is
    read once and written once, under the key of the user, the skill and
    the measure, and the stored document holds N more events, N more
    observations counted and as many more correct ones as there are scores
    at or above the cutoff. *)
Theorem record_scores_one_skill (user : User) (skill_id : pyval)
    (scores : list pyval) (key : string) (w : world)
    (events : list pyval) (correct count : Z) :
  registry w = [SuccessRateCompetencyMeasure.class] →
  CompetencyMeasureEntity.create_key_name (PStr (User_user_id user))
    skill_id (PStr "SuccessRateCompetencyMeasure") = Ok key →
  success_rate_state (default ∅ (docs w !! key))
  = Some (events, correct, count) →
  ∃ doc,
    record_scores user [(skill_id, scores)] w
    = (World (<[key := doc]> (docs w)) (registry w)
         (trace w ++ [DaoLoad key; DaoSave key]),
       Ok tt)
    ∧ success_rate_state doc
      = Some (events
              ++ map (fun s => BaseCompetencyMeasure.event_record s no_kwargs)
                   scores,
              (correct
               + count_correct (map (fun s => (s, no_kwargs)) scores))%Z,
              (count + Z.of_nat (length scores))%Z).
Proof.
  intros Hreg Hkey Hst.
  destruct (updates_state (map (fun s => (s, no_kwargs)) scores)
              (loaded w (User_user_id user) key) _ _ _ _ eq_refl Hst)
    as (d' & Hup & Hid & Hst').
  exists (dict d'). split.
  - simpl. unfold sbind at 1. unfold Registry.get_updater.
    rewrite (load_measures_eq _ _ (fun _ => key)), Hreg.
    2:{ rewrite Hreg. by apply Forall_singleton. }
    simpl. unfold sbind at 1, lift. rewrite update_all_single, Hup.
    simpl. unfold sbind. rewrite (save_eq _ d') by done.
    unfold sret. simpl in *. rewrite Hid, <- app_assoc. done.
  - rewrite Hst', map_map, length_map. done.
Qed.

End isolation.


(** ** Several measures, and documents that are not well formed *)

Section robustness.
Context {builtins : PyBuiltins} {collaborators : Collaborators}.
Import CompetencyMeasureDto.

Lemma updates_cons_Ok cls s kw calls m m' :
  updates cls ((s, kw) :: calls) m = (m', Ok tt) ↔
  ∃ m1, update cls s kw m = (m1, Ok tt) ∧ updates cls calls m1 = (m', Ok tt).
Proof.
  simpl. unfold sbind.
  destruct (update cls s kw m) as [m1 [[]|e]]; split.
  - intros Hrest. by exists m1.
  - by intros (? & [= <-] & ?).
  - done.
  - by intros (? & [= ] & _).
Qed.

(** The scores of one skill, fed to an updater of two measures. *)
Lemma update_all_pair cls1 cls2 scores : ∀ m1 m2 m1' m2',
  updates cls1 (map (fun s => (s, no_kwargs)) scores) m1 = (m1', Ok tt) →
  updates cls2 (map (fun s => (s, no_kwargs)) scores) m2 = (m2', Ok tt) →
  update_all scores [(cls1, m1); (cls2, m2)]
  = Ok [(cls1, m1'); (cls2, m2')].
Proof.
  induction scores as [|s scores IH]; intros m1 m2 m1' m2'.
  - simpl. unfold sret. by intros [= <-] [= <-].
  - rewrite map_cons.
    intros (x1 & Hx1 & Hrest1)%updates_cons_Ok
           (x2 & Hx2 & Hrest2)%updates_cons_Ok.
    simpl. rewrite Hx1, Hx2. by apply IH.
Qed.

(** X25. Two registered measure types keep two documents for the same
    user and skill, under two different keys: with the base class and the
    success rate measure registered, the scores of a skill are logged in
    both documents, both are read before either is written, and the
    counters of the success rate document are as with that measure
    alone. *)
Theorem two_measures_two_documents (user : User) (skill_id : pyval)
    (scores : list pyval) (key_base key_rate : string) (w : world)
    (events_base events : list pyval) (correct count : Z) :
  registry w
  = [BaseCompetencyMeasure.class; SuccessRateCompetencyMeasure.class] →
  CompetencyMeasureEntity.create_key_name (PStr (User_user_id user))
    skill_id (PStr "BaseCompetencyMeasure") = Ok key_base →
  CompetencyMeasureEntity.create_key_name (PStr (User_user_id user))
    skill_id (PStr "SuccessRateCompetencyMeasure") = Ok key_rate →
  events_of (default ∅ (docs w !! key_base)) = Some events_base →
  success_rate_state (default ∅ (docs w !! key_rate))
  = Some (events, correct, count) →
  let records :=
    map (fun s => BaseCompetencyMeasure.event_record s no_kwargs) scores in
  key_base ≠ key_rate
  ∧ ∃ doc_base doc_rate,
      record_scores user [(skill_id, scores)] w
      = (World (<[key_rate := doc_rate]> (<[key_base := doc_base]> (docs w)))
           (registry w)
           (trace w ++ [DaoLoad key_base; DaoLoad key_rate;
                        DaoSave key_base; DaoSave key_rate]),
         Ok tt)
      ∧ events_of doc_base = Some (events_base ++ records)
      ∧ success_rate_state doc_rate
        = Some (events ++ records,
                (correct
                 + count_correct (map (fun s => (s, no_kwargs)) scores))%Z,
                (count + Z.of_nat (length scores))%Z).
Proof.
  intros Hreg Hkb Hkr Hevb Hst records.
  assert (Hne : key_base ≠ key_rate).
  { intros ->. apply create_key_name_split in Hkb, Hkr.
    rewrite Hkb, !py_str_PStr in Hkr. by simplify_eq. }
  split; [done|].
  destruct (base_updates_events (map (fun s => (s, no_kwargs)) scores)
              (loaded w (User_user_id user) key_base) _ _ eq_refl Hevb)
    as (db & Hupb & Hidb & Hevb' & _).
  destruct (updates_state (map (fun s => (s, no_kwargs)) scores)
              (loaded w (User_user_id user) key_rate) _ _ _ _ eq_refl Hst)
    as (dr & Hupr & Hidr & Hst').
  exists (dict db), (dict dr). split; [|split].
  - simpl. unfold sbind at 1. unfold Registry.get_updater.
    rewrite (load_measures_eq _ _
               (fun cls => if String.eqb (__name__ cls) "BaseCompetencyMeasure"
                           then key_base else key_rate)), Hreg.
    2:{ rewrite Hreg. repeat constructor; done. }
    simpl. unfold sbind at 1, lift.
    rewrite (update_all_pair _ _ _ _ _ _ _ Hupb Hupr).
    simpl. unfold sbind. rewrite (save_eq _ db) by done.
    rewrite (save_eq _ dr) by done. unfold sret. simpl in *.
    rewrite Hidb, Hidr, <- !app_assoc. done.
  - rewrite Hevb', map_map. done.
  - rewrite Hst', map_map, length_map. done.
Qed.

Lemma count_correct_bounds calls :
  (0 ≤ count_correct calls ≤ Z.of_nat (length calls))%Z.
Proof.
  unfold count_correct. pose proof (length_filter
    (fun call : pyval * kwargs => is_correct call.1 = true) calls). lia.
Qed.

(** X26. With the success rate measure as the one registered class, the
    listener keeps the store consistent: when every stored document has
    counters that agree with its event log, so has every stored document
    after the call, whether it returned or raised. *)
Theorem listener_keeps_store_consistent (source : string) (user : User)
    (data : string) (w : world) :
  registry w = [SuccessRateCompetencyMeasure.class] →
  (∀ key doc, docs w !! key = Some doc → consistent doc) →
  ∀ key doc,
    docs (record_event_listener source user data w).1 !! key = Some doc →
    consistent doc.
Proof.
  intros Hreg Hcons.
  assert (Hscores : ∀ items w0 w1 r,
            registry w0 = [SuccessRateCompetencyMeasure.class] →
            (∀ key doc, docs w0 !! key = Some doc → consistent doc) →
            record_scores user items w0 = (w1, r) →
            ∀ key doc, docs w1 !! key = Some doc → consistent doc).
  { induction items as [|[skill_id scores] items IH];
      intros w0 w1 r Hreg0 Hcons0; simpl.
    - unfold sret. by intros [= <- <-].
    - unfold sbind at 1. unfold Registry.get_updater. rewrite Hreg0. simpl.
      unfold sbind at 1.
      destruct (BaseCompetencyMeasure.load _ _ _ w0) as [w2 [m|e]] eqn:Hload.
      2:{ apply load_raise in Hload as [-> ->]. by intros [= <- <-]. }
      apply load_inv in Hload as (k & Hk & -> & ->). simpl.
      unfold sbind at 1, lift.
      rewrite update_all_single.
      assert (Hdoc : consistent (default ∅ (docs w0 !! k))).
      { destruct (docs w0 !! k) as [doc0|] eqn:Hdoc0; simpl.
        - by eapply Hcons0.
        - exists [], 0%Z, 0%Z. split; [done|]. simpl. lia. }
      destruct Hdoc as (evs & c & n & Hst & Hn & Hc).
      destruct (updates_state (map (fun s => (s, no_kwargs)) scores)
                  (loaded w0 (User_user_id user) k) _ _ _ _ eq_refl Hst)
        as (d' & Hup & Hid & Hst').
      simpl user_id in Hup. rewrite Hup. simpl. unfold sbind.
      rewrite (save_eq _ d') by done. unfold sret. simpl.
      apply IH; [done|]. simpl. intros key doc.
      destruct (decide (key = _id d')) as [->|Hkey].
      + rewrite lookup_insert_eq. intros [= <-].
        eexists _, _, _. split; [exact Hst'|].
        pose proof (count_correct_bounds
                      (map (fun s => (s, no_kwargs)) scores)).
        rewrite length_app, !length_map in *. lia.
      + rewrite lookup_insert_ne by done. apply Hcons0. }
  rewrite record_event_listener_eq.
  destruct (question_scores_of_event source data) as [[qss|e]|]; [|done..].
  unfold record_question_scores, sbind.
  destruct (group_scores qss [] w) as [w1 [d|e]] eqn:Hgroup;
    apply group_scores_frame in Hgroup as (Hdocs & Hreg1 & _).
  - destruct (record_scores user d w1) as [w2 r] eqn:Hrun. simpl.
    eapply Hscores; [| |exact Hrun]; [congruence|].
    intros key doc. rewrite Hdocs. apply Hcons.
  - simpl. intros key doc. rewrite Hdocs. apply Hcons.
Qed.

(** X27. A stored document that is not a measure document is never
    overwritten: when its events are not a list or its data not a dict,
    recording scores for its skill leaves the stored documents as they
    were, and raises [AttributeError] as soon as there is a score. *)
Theorem malformed_document_is_kept (user : User) (skill_id : pyval)
    (scores : list pyval) (key : string) (doc : gmap string pyval)
    (w : world) :
  registry w = [SuccessRateCompetencyMeasure.class] →
  CompetencyMeasureEntity.create_key_name (PStr (User_user_id user))
    skill_id (PStr "SuccessRateCompetencyMeasure") = Ok key →
  docs w !! key = Some doc →
  events_of doc = None ∨ data_of doc = None →
  docs (record_scores user [(skill_id, scores)] w).1 = docs w
  ∧ (scores ≠ [] →
     (record_scores user [(skill_id, scores)] w).2 = Raise AttributeError).
Proof.
  intros Hreg Hkey Hdoc Hbad.
  assert (Hrun : record_scores user [(skill_id, scores)] w
                 = match scores with
                   | [] =>
                       (World (<[key := doc]> (docs w)) (registry w)
                          (trace w ++ [DaoLoad key; DaoSave key]), Ok tt)
                   | _ :: _ =>
                       (World (docs w) (registry w)
                          (trace w ++ [DaoLoad key]), Raise AttributeError)
                   end).
  { simpl. unfold sbind at 1. unfold Registry.get_updater.
    rewrite (load_measures_eq _ _ (fun _ => key)), Hreg.
    2:{ rewrite Hreg. by apply Forall_singleton. }
    simpl. unfold sbind at 1, lift. unfold loaded. rewrite Hdoc. simpl.
    destruct scores as [|s scores]; simpl.
    - unfold sbind, sret. simpl. by rewrite <- app_assoc.
    - assert (Hup : ∃ m',
                SuccessRateCompetencyMeasure.update s no_kwargs
                  (Measure (Some (__init__ key doc)) (User_user_id user))
                = (m', Raise AttributeError)).
      { rewrite update_unfold. unfold sbind.
        destruct (events_of doc) as [evs|] eqn:Hev.
        - destruct Hbad as [|Hdata]; [done|].
          erewrite base_update_events; [|done|exact Hev].
          unfold update_summary, dto_call, get_data. unfold_M. simpl.
          rewrite lookup_insert_ne by done.
          unfold data_of in Hdata.
          destruct (doc !! "data") as [[]|]; try done; by eexists.
        - unfold BaseCompetencyMeasure.update, assert_dto_is_not_None,
            dto_mutate, append_event. unfold_M. simpl.
          unfold events_of in Hev.
          destruct (doc !! "events") as [[]|]; try done; by eexists. }
      destruct Hup as [m' Hup]. by rewrite Hup. }
  rewrite Hrun. destruct scores; simpl; (split; [|done]); [|done].
  by apply insert_id.
Qed.

End robustness.


(** ** Registration and whole events *)

Section whole_events.
Context {builtins : PyBuiltins} {collaborators : Collaborators}.
Import CompetencyMeasureDto.

(** The scores of one skill recorded by one registered success rate
    measure, in terms of the updates of the loaded instance. *)
Lemma record_scores_rate user skill_id scores key w d' :
  registry w = [SuccessRateCompetencyMeasure.class] →
  CompetencyMeasureEntity.create_key_name (PStr (User_user_id user))
    skill_id (PStr "SuccessRateCompetencyMeasure") = Ok key →
  updates SuccessRateCompetencyMeasure.class
    (map (fun s => (s, no_kwargs)) scores)
    (loaded w (User_user_id user) key)
  = (Measure (Some d') (User_user_id user), Ok tt) →
  record_scores user [(skill_id, scores)] w
  = (World (<[_id d' := dict d']> (docs w)) (registry w)
       (trace w ++ [DaoLoad key; DaoSave (_id d')]),
     Ok tt).
Proof.
  intros Hreg Hkey Hup. simpl. unfold sbind at 1.
  unfold Registry.get_updater.
  rewrite (load_measures_eq _ _ (fun _ => key)), Hreg.
  2:{ rewrite Hreg. by apply Forall_singleton. }
  simpl. unfold sbind at 1, lift. rewrite update_all_single, Hup.
  simpl. unfold sbind. rewrite (save_eq _ d') by done.
  unfold sret. simpl. by rewrite <- app_assoc.
Qed.


(** X30. A "Check Answer" event on a question with one skill tag, with
    the success rate measure registered: the question is looked up, the
    document of the user and the skill is read once and written once, and
    the stored document holds one more event and one more observation,
    counted as correct exactly when the score is at or above the
    cutoff. *)
Theorem check_answer_records_one_observation (user : User) (data : string)
    (item : gmap string pyval) (type a_quid a_score skill_id : pyval)
    (question : QuestionDto) (key : string) (w : world)
    (events : list pyval) (correct count : Z) :
  loads data = Ok (PDict item) →
  item !! "type" = Some type →
  type ≠ PStr "QuestionGroup" →
  item !! "quid" = Some a_quid →
  item !! "score" = Some a_score →
  QuestionDAO_load a_quid = Ok (Some question) →
  question_dict question !! SKILLS_KEY = Some (PList [skill_id]) →
  py_hashable skill_id = true →
  registry w = [SuccessRateCompetencyMeasure.class] →
  CompetencyMeasureEntity.create_key_name (PStr (User_user_id user))
    skill_id (PStr "SuccessRateCompetencyMeasure") = Ok key →
  success_rate_state (default ∅ (docs w !! key))
  = Some (events, correct, count) →
  ∃ doc,
    record_event_listener "tag-assessment" user data w
    = (World (<[key := doc]> (docs w)) (registry w)
         (trace w ++ [QuestionLoad a_quid; DaoLoad key; DaoSave key]),
       Ok tt)
    ∧ success_rate_state doc
      = Some (events ++ [BaseCompetencyMeasure.event_record a_score no_kwargs],
              (correct + Z.b2z (is_correct a_score))%Z,
              (count + 1)%Z).
Proof.
  intros Hloads Htype Hne Hquid Hscore Hquestion Hskills Hhash Hreg Hkey Hst.
  set (w1 := World (docs w) (registry w) (trace w ++ [QuestionLoad a_quid])).
  destruct (updates_state [(a_score, no_kwargs)]
              (loaded w1 (User_user_id user) key) _ _ _ _ eq_refl Hst)
    as (d' & Hup & Hid & Hst').
  assert (Hgroup : group_scores [Build_QuestionScore a_quid a_score] [] w
                   = (w1, Ok [(skill_id, [a_score])])).
  { simpl. unfold sbind, log, lift, sret. simpl.
    rewrite Hquestion, Hskills. simpl. by rewrite Hhash. }
  exists (dict d'). split.
  - rewrite record_event_listener_eq. unfold question_scores_of_event.
    simpl. rewrite Hloads. simpl.
    unfold _get_questions_scores_from_single_item. simpl.
    rewrite Htype. simpl. rewrite (py_eq_str_false _ _ Hne), Hquid, Hscore.
    simpl. unfold record_question_scores, sbind. rewrite Hgroup.
    rewrite (record_scores_rate user skill_id [a_score] key w1 d');
      [|done|done|exact Hup].
    simpl in Hid. rewrite Hid. simpl. by rewrite <- app_assoc.
  - rewrite Hst', count_correct_cons. unfold count_correct. simpl.
    by rewrite Z.add_0_r.
Qed.

End whole_events.


(** ** The statements on concrete inputs *)

#[local] Existing Instance sample_builtins.
#[local] Existing Instance sample_collaborators.

Example Z_ge_float_half :
  map (fun z => Z_ge_float z 0.5) [-1; 0; 1; 2]%Z = [false; false; true; true].
Proof. reflexivity. Qed.

Example Z_ge_float_exact :
  Z_ge_float 2 2.5 = false ∧ Z_ge_float 3 2.5 = true
  ∧ Z_ge_float (-1) (-0.5) = false ∧ Z_ge_float 0 (-0.5) = true
  ∧ Z_ge_float (2 ^ 53 + 1) 0x1p53 = true
  ∧ Z_ge_float (2 ^ 53) 0x1.0000000000001p53 = false.
Proof. vm_compute. repeat split. Qed.

(** The score of an instance that was never loaded. *)
Example get_skill_score_unloaded :
  SuccessRateCompetencyMeasure.get_skill_score
    (BaseCompetencyMeasure.__init__ "ann") = Raise AttributeError.
Proof. reflexivity. Qed.

Example success_rate_two_thirds :
  success_rate 2 3 = Ok 0x1.5555555555555p-1%float.
Proof. vm_compute. reflexivity. Qed.

(** Two of three observations are correct: the score is [2.0 / 3]. *)
Lemma success_rate_of_observations_witness :
  ∃ m2,
    (∃ w1 m1,
       BaseCompetencyMeasure.load
         (SuccessRateCompetencyMeasure.class (builtins := sample_builtins))
         (PInt 7) (BaseCompetencyMeasure.__init__ "ann") sample_world
       = (w1, Ok m1)
       ∧ updates
           (SuccessRateCompetencyMeasure.class (builtins := sample_builtins))
           sample_calls m1 = (m2, Ok tt))
    ∧ SuccessRateCompetencyMeasure.get_skill_score
        (builtins := sample_builtins) m2
      = Ok 0x1.5555555555555p-1%float.
Proof.
  destruct (success_rate_of_observations (builtins := sample_builtins)
              sample_world "ann" (PInt 7)
              "ann:7:SuccessRateCompetencyMeasure" [] sample_calls)
    as (w1 & m1 & m2 & Hload & Hup & Hscore & _).
  - vm_compute. reflexivity.
  - vm_compute. reflexivity.
  - exists m2. split; [by exists w1, m1|]. rewrite Hscore.
    vm_compute. reflexivity.
Defined.

(** One observation at 0.75 on a new document. *)
Lemma update_logs_then_summarises_witness :
  ∃ d',
    SuccessRateCompetencyMeasure.update (PFloat 0.75) no_kwargs
      (Measure (Some (CompetencyMeasureDto.__init__ "k" ∅)) "ann")
    = (Measure (Some d') "ann", Ok tt)
    ∧ success_rate_state (CompetencyMeasureDto.dict d')
      = Some ([BaseCompetencyMeasure.event_record (PFloat 0.75) no_kwargs],
              1%Z, 1%Z).
Proof.
  apply (proj2 (proj2 (update_logs_then_summarises (PFloat 0.75) no_kwargs
                         (Measure (Some (CompetencyMeasureDto.__init__ "k" ∅))
                            "ann")))
           (CompetencyMeasureDto.__init__ "k" ∅) [] 0%Z 0%Z);
    reflexivity.
Defined.

(** Three updates of a base measure on a new document. *)
Lemma events_in_arrival_order_witness :
  ∃ self',
    updates BaseCompetencyMeasure.class sample_calls
      (Measure (Some (CompetencyMeasureDto.__init__ "k" ∅)) "ann")
    = (self', Ok tt)
    ∧ BaseCompetencyMeasure.get_events_list self'
      = Ok (PList
              [BaseCompetencyMeasure.event_record (PFloat 0.75) no_kwargs;
               BaseCompetencyMeasure.event_record (PFloat 0.25) no_kwargs;
               BaseCompetencyMeasure.event_record (PFloat 0.5) no_kwargs]).
Proof.
  refine (proj1 (events_in_arrival_order (builtins := sample_builtins)
                   (Measure (Some (CompetencyMeasureDto.__init__ "k" ∅)) "ann")
                   (CompetencyMeasureDto.__init__ "k" ∅) [] sample_calls
                   _ _)); reflexivity.
Defined.

(** A colon in the user id. *)
Lemma create_key_name_assertion_witness :
  CompetencyMeasureEntity.create_key_name (builtins := sample_builtins)
    (PStr "mailto:ann") (PStr "7") (PStr "SuccessRateCompetencyMeasure")
  = Raise AssertionError.
Proof.
  apply (proj1 (create_key_name_assertion (builtins := sample_builtins)
                  "mailto:ann" "7" "SuccessRateCompetencyMeasure")).
  left. reflexivity.
Defined.

(** A "Grade Questions" event in the format of before version 1.5. *)
Lemma legacy_list_yields_nothing_witness :
  record_event_listener (builtins := sample_builtins)
    (collaborators := sample_collaborators)
    "attempt-lesson" {| User_user_id := "ann" |} "[]" sample_world
  = (sample_world, Ok tt).
Proof.
  apply (proj2 (legacy_list_yields_nothing (builtins := sample_builtins)
                  (collaborators := sample_collaborators) [])).
  reflexivity.
Defined.

(** A page view is none of the listener's business. *)
Lemma unrecognized_source_ignored_witness :
  record_event_listener (builtins := sample_builtins)
    (collaborators := sample_collaborators)
    "enter-page" {| User_user_id := "ann" |} (sample_item_text "q1" "0.75")
    sample_world
  = (sample_world, Ok tt).
Proof.
  apply (unrecognized_source_ignored (builtins := sample_builtins)
           (collaborators := sample_collaborators)); discriminate.
Defined.

(** A group of three sub-questions. *)
Lemma single_item_question_scores_witness :
  _get_questions_scores_from_single_item (PDict sample_group)
  = Ok [Build_QuestionScore (PStr "q1") (PInt 1);
        Build_QuestionScore (PStr "q2") (PInt 0);
        Build_QuestionScore (PStr "q3") (PFloat 0.5)].
Proof.
  apply (proj1 (proj2 (single_item_question_scores sample_group)));
    vm_compute; reflexivity.
Defined.

(** A new instance cannot be saved. *)
Lemma unloaded_measure_fails_fast_witness :
  BaseCompetencyMeasure.save (BaseCompetencyMeasure.__init__ "ann")
    sample_world
  = (sample_world, Raise AssertionError).
Proof.
  apply (proj1 (unloaded_measure_fails_fast (builtins := sample_builtins)
                  (BaseCompetencyMeasure.__init__ "ann"))).
  reflexivity.
Defined.

(** A "Check Answer" event on the question [q9], which the question store
    does not hold. *)
Lemma absent_question_aborts_event_witness :
  ∃ w',
    record_event_listener (builtins := sample_builtins)
      (collaborators := sample_collaborators)
      "tag-assessment" {| User_user_id := "ann" |}
      (sample_item_text "q9" "1") sample_world
    = (w', Raise AttributeError)
    ∧ docs w' = docs sample_world.
Proof.
  destruct (absent_question_aborts_event (builtins := sample_builtins)
              (collaborators := sample_collaborators)
              "tag-assessment" {| User_user_id := "ann" |}
              (sample_item_text "q9" "1")
              [Build_QuestionScore (PStr "q9") (PInt 1)]
              (Build_QuestionScore (PStr "q9") (PInt 1)) sample_world)
    as (w' & e & Hrun & Hdocs & _ & _ & He).
  - vm_compute. reflexivity.
  - apply list_elem_of_here.
  - reflexivity.
  - exists w'. rewrite Hrun. split; [|exact Hdocs].
    f_equal. f_equal. apply (He [] [] []); reflexivity.
Defined.

(** The first scenario of the specification: one answer to the question
    [q1], tagged with the skill 7.  The question is looked up, the measure
    is loaded once and saved once, and the stored document counts one
    observation, which is correct. *)
Example listener_records_answer :
  let run :=
    record_event_listener "tag-assessment" {| User_user_id := "ann" |}
      (sample_item_text "q1" "0.75") sample_world in
  run.2 = Ok tt
  ∧ trace run.1 = [QuestionLoad (PStr "q1");
                   DaoLoad "ann:7:SuccessRateCompetencyMeasure";
                   DaoSave "ann:7:SuccessRateCompetencyMeasure"]
  ∧ (success_rate_state
       <$> docs run.1 !! "ann:7:SuccessRateCompetencyMeasure")
    = Some (Some ([BaseCompetencyMeasure.event_record (PFloat 0.75)
                     no_kwargs], 1%Z, 1%Z))
  ∧ dom (docs run.1) = {["ann:7:SuccessRateCompetencyMeasure"]}.
Proof. vm_compute. repeat split. Qed.

(** *** Further statements on concrete inputs *)

Lemma set_data_get_data_witness :
  CompetencyMeasureDto.get_data "count"
    (CompetencyMeasureDto.__init__ "k"
       (<["data" := PDict {["count" := PInt 3]}]> ∅))
  = Ok (PInt 3).
Proof.
  refine (proj1 (set_data_get_data "count" (PInt 3) sample_dto _ _)).
  vm_compute. reflexivity.
Defined.

Lemma get_skill_score_ignores_events_witness :
  SuccessRateCompetencyMeasure.get_skill_score
    (Measure (Some (CompetencyMeasureDto.__init__ "k"
                      (<["events" := PList [BaseCompetencyMeasure.event_record
                                               (PFloat 0.75) no_kwargs]]> ∅)))
       "ann")
  = SuccessRateCompetencyMeasure.get_skill_score
      (Measure (Some sample_dto) "ann").
Proof.
  apply (get_skill_score_ignores_events (PFloat 0.75) no_kwargs).
  vm_compute. reflexivity.
Defined.

Lemma update_keeps_consistent_witness :
  ∃ d',
    SuccessRateCompetencyMeasure.update (PFloat 0.75) no_kwargs
      (Measure (Some sample_dto) "ann")
    = (Measure (Some d') "ann", Ok tt)
    ∧ consistent (CompetencyMeasureDto.dict d').
Proof.
  destruct (update_keeps_consistent (PFloat 0.75) no_kwargs
              (Measure (Some sample_dto) "ann") sample_dto)
    as [Hempty Hstep].
  destruct (Hstep eq_refl Hempty) as (d' & Hup & Hcons & _).
  by exists d'.
Defined.

Lemma load_save_roundtrip_witness :
  ∃ w1 m1 w2 m2,
    BaseCompetencyMeasure.load SuccessRateCompetencyMeasure.class (PInt 7)
      (BaseCompetencyMeasure.__init__ "ann") sample_world = (w1, Ok m1)
    ∧ BaseCompetencyMeasure.save m1 w1 = (w2, Ok m2)
    ∧ docs w2 = {["ann:7:SuccessRateCompetencyMeasure" := ∅]}
    ∧ dto m2 = None.
Proof.
  destruct (load_save_roundtrip SuccessRateCompetencyMeasure.class (PInt 7)
              "ann" "ann:7:SuccessRateCompetencyMeasure" sample_world)
    as (w1 & m1 & w2 & m2 & Hload & _ & Hsave & Hdocs & _ & _ & Hm2).
  - vm_compute. reflexivity.
  - by exists w1, m1, w2, m2.
Defined.

Lemma create_key_name_injective_witness :
  py_str (PStr "ann") = py_str (PStr "ann")
  ∧ py_str (PInt 7) = py_str (PStr "7")
  ∧ py_str (PStr "M") = py_str (PStr "M").
Proof.
  apply (create_key_name_injective (PStr "ann") (PInt 7) (PStr "M")
           (PStr "ann") (PStr "7") (PStr "M") "ann:7:M");
    vm_compute; reflexivity.
Defined.

Lemma safe_key_transforms_user_witness :
  CompetencyMeasureEntity.safe_key
    (CompetencyMeasureEntity.from_path CompetencyMeasureEntity.kind
       (join_key "ann" "7" "SuccessRateCompetencyMeasure"))
    sample_transform
  = Ok (CompetencyMeasureEntity.from_path CompetencyMeasureEntity.kind
          "anon-ann:7:SuccessRateCompetencyMeasure").
Proof.
  rewrite (safe_key_transforms_user "ann" "7" "SuccessRateCompetencyMeasure"
             sample_transform) by reflexivity.
  reflexivity.
Defined.

Lemma safe_key_rejects_witness :
  CompetencyMeasureEntity.safe_key
    (CompetencyMeasureEntity.from_path CompetencyMeasureEntity.kind
       "ann:7:Success:Rate")
    sample_transform
  = Raise AssertionError.
Proof.
  apply (proj2 (safe_key_rejects
                  (CompetencyMeasureEntity.from_path
                     CompetencyMeasureEntity.kind "ann:7:Success:Rate")
                  sample_transform)
           "ann" "7" "Success:Rate" "anon-ann"); reflexivity.
Defined.

Lemma single_item_group_truncates_witness :
  ∃ question_scores,
    _get_questions_scores_from_single_item
      (PDict (<["individualScores" := PList [PInt 1; PInt 0]]> sample_group))
    = Ok question_scores
    ∧ length question_scores = 2.
Proof.
  destruct (single_item_group_truncates
              (<["individualScores" := PList [PInt 1; PInt 0]]> sample_group)
              [PStr "q1"; PStr "q2"; PStr "q3"] [PInt 1; PInt 0])
    as (question_scores & Hrun & Hlen & _); try (vm_compute; reflexivity).
  by exists question_scores.
Defined.

(** The two entries of [sample_quids], one at a time. *)
Ltac sample_quids_cases :=
  let Hk := fresh "Hk" in
  intros ? ? Hk; unfold sample_quids in Hk;
  apply lookup_insert_Some in Hk as [[<- <-]|[_ Hk]];
  [|apply lookup_insert_Some in Hk as [[<- <-]|[_ Hk]];
    [|by rewrite lookup_empty in Hk]].

Lemma many_items_question_scores_witness :
  ∃ question_scores,
    _get_questions_scores_from_many_items
      (PDict (<["quids" := PDict sample_quids]>
                {["individualScores" := PDict sample_scores]}))
    = Ok question_scores
    ∧ (length question_scores = 2).
Proof.
  destruct (many_items_question_scores sample_quids sample_scores
              (<["quids" := PDict sample_quids]>
                 {["individualScores" := PDict sample_scores]}))
    as (question_scores & Hrun & _ & Hlen); try (vm_compute; reflexivity).
  - sample_quids_cases;
      eexists _, _; vm_compute; split; reflexivity.
  - exists question_scores. split; [exact Hrun|]. apply Hlen.
    sample_quids_cases;
      reflexivity.
Defined.

Lemma many_items_missing_score_witness :
  _get_questions_scores_from_many_items
    (PDict (<["quids" := PDict sample_quids]>
              {["individualScores" := PDict {["i1" := PInt 1]}]}))
  = Raise KeyError.
Proof.
  apply (many_items_missing_score sample_quids {["i1" := PInt 1]}
           (<["quids" := PDict sample_quids]>
              {["individualScores" := PDict {["i1" := PInt 1]}]}) "i2");
    try (vm_compute; reflexivity).
  - sample_quids_cases;
      reflexivity.
  - exists (PStr "q2"). vm_compute. reflexivity.
Defined.

Lemma get_updater_loads_each_class_witness :
  Registry.get_updater "ann" (PInt 7) sample_world
  = (World ∅ (registry sample_world)
       [DaoLoad "ann:7:SuccessRateCompetencyMeasure"],
     Ok [(SuccessRateCompetencyMeasure.class,
          loaded sample_world "ann" "ann:7:SuccessRateCompetencyMeasure")]).
Proof.
  refine (get_updater_loads_each_class "ann" (PInt 7)
            (fun _ => "ann:7:SuccessRateCompetencyMeasure") sample_world _).
  repeat constructor.
Defined.

Lemma get_updater_rejects_separator_witness :
  Registry.get_updater "mailto:ann" (PInt 7) sample_world
  = (sample_world, Raise AssertionError).
Proof.
  refine (get_updater_rejects_separator "mailto:ann" (PInt 7) sample_world _).
  left. reflexivity.
Defined.

Lemma updater_save_consumes_witness :
  ∃ w' updater',
    Registry._Updater_save sample_updater sample_world2 = (w', Ok updater')
    ∧ Registry._Updater_save updater' w' = (w', Raise AssertionError).
Proof.
  assert (Hrun : Registry._Updater_save sample_updater sample_world2
                 = (World
                      (<["ann:7:SuccessRateCompetencyMeasure" := ∅]>
                         (<["ann:7:BaseCompetencyMeasure" := ∅]> ∅))
                      (registry sample_world2)
                      [DaoSave "ann:7:BaseCompetencyMeasure";
                       DaoSave "ann:7:SuccessRateCompetencyMeasure"],
                    Ok [(BaseCompetencyMeasure.class, Measure None "ann");
                        (SuccessRateCompetencyMeasure.class,
                         Measure None "ann")]))
    by reflexivity.
  eexists _, _. split; [exact Hrun|].
  by apply (proj2 (proj2 (updater_save_consumes _ _ _ _ Hrun))).
Defined.

Lemma empty_registry_is_noop_witness :
  record_scores {| User_user_id := "ann" |} [(PInt 7, [PFloat 0.75])]
    (World ∅ [] [])
  = (World ∅ [] [], Ok tt).
Proof.
  apply (proj1 (empty_registry_is_noop {| User_user_id := "ann" |}
                  [(PInt 7, [PFloat 0.75])] (World ∅ [] []) eq_refl)).
Defined.

Lemma listener_propagates_decoding_errors_witness :
  record_event_listener "tag-assessment" {| User_user_id := "ann" |}
    "{not JSON" sample_world
  = (sample_world, Raise ValueError).
Proof.
  apply listener_propagates_decoding_errors.
  - left. reflexivity.
  - left. reflexivity.
Defined.

Lemma submit_assessment_as_attempt_lesson_witness :
  record_event_listener "submit-assessment" {| User_user_id := "ann" |}
    (sample_item_text "q1" "0.75") sample_world
  = (sample_world, Raise KeyError).
Proof.
  refine (submit_assessment_as_attempt_lesson {| User_user_id := "ann" |}
            (sample_item_text "q1" "0.75") (sample_item "q1" (PFloat 0.75))
            sample_world _).
  vm_compute. reflexivity.
Defined.


Lemma listener_changes_only_the_user_witness :
  only_user_changed "ann" sample_world
    (record_event_listener "tag-assessment" {| User_user_id := "ann" |}
       (sample_item_text "q1" "0.75") sample_world).1.
Proof.
  destruct (listener_changes_only_the_user "tag-assessment"
              {| User_user_id := "ann" |} (sample_item_text "q1" "0.75")
              sample_world) as [[_ Hrate] Honly].
  apply Honly. repeat constructor. exact Hrate.
Defined.

Lemma record_scores_one_skill_witness :
  ∃ doc,
    record_scores {| User_user_id := "ann" |}
      [(PInt 7, [PFloat 0.75; PFloat 0.25])] sample_world
    = (World {["ann:7:SuccessRateCompetencyMeasure" := doc]}
         (registry sample_world)
         [DaoLoad "ann:7:SuccessRateCompetencyMeasure";
          DaoSave "ann:7:SuccessRateCompetencyMeasure"],
       Ok tt)
    ∧ success_rate_state doc
      = Some ([BaseCompetencyMeasure.event_record (PFloat 0.75) no_kwargs;
               BaseCompetencyMeasure.event_record (PFloat 0.25) no_kwargs],
              1%Z, 2%Z).
Proof.
  destruct (record_scores_one_skill {| User_user_id := "ann" |} (PInt 7)
              [PFloat 0.75; PFloat 0.25]
              "ann:7:SuccessRateCompetencyMeasure" sample_world [] 0%Z 0%Z)
    as (doc & Hrun & Hst); try reflexivity.
  exists doc. split; [exact Hrun|]. rewrite Hst. reflexivity.
Defined.

Lemma two_measures_two_documents_witness :
  ∃ doc_base doc_rate,
    docs (record_scores {| User_user_id := "ann" |}
            [(PInt 7, [PFloat 0.75])] sample_world2).1
    = <["ann:7:SuccessRateCompetencyMeasure" := doc_rate]>
        {["ann:7:BaseCompetencyMeasure" := doc_base]}
    ∧ events_of doc_base
      = Some [BaseCompetencyMeasure.event_record (PFloat 0.75) no_kwargs].
Proof.
  destruct (two_measures_two_documents {| User_user_id := "ann" |} (PInt 7)
              [PFloat 0.75] "ann:7:BaseCompetencyMeasure"
              "ann:7:SuccessRateCompetencyMeasure" sample_world2
              [] [] 0%Z 0%Z)
    as (_ & doc_base & doc_rate & Hrun & Hbase & _); try reflexivity.
  exists doc_base, doc_rate. rewrite Hrun. split; [reflexivity|exact Hbase].
Defined.

Lemma listener_keeps_store_consistent_witness :
  ∃ doc,
    docs (record_event_listener "tag-assessment" {| User_user_id := "ann" |}
            (sample_item_text "q1" "0.75") sample_world).1
      !! "ann:7:SuccessRateCompetencyMeasure"
    = Some doc
    ∧ consistent doc.
Proof.
  eexists. split; [reflexivity|].
  refine (listener_keeps_store_consistent "tag-assessment"
            {| User_user_id := "ann" |} (sample_item_text "q1" "0.75")
            sample_world _ _ "ann:7:SuccessRateCompetencyMeasure" _ _).
  - reflexivity.
  - intros key doc Hdoc. simpl in Hdoc. by rewrite lookup_empty in Hdoc.
  - reflexivity.
Defined.

Lemma malformed_document_is_kept_witness :
  docs (record_scores {| User_user_id := "ann" |} [(PInt 7, [PFloat 0.75])]
          sample_bad_world).1
  = docs sample_bad_world.
Proof.
  apply (proj1 (malformed_document_is_kept {| User_user_id := "ann" |}
                  (PInt 7) [PFloat 0.75]
                  "ann:7:SuccessRateCompetencyMeasure" {["events" := PNone]}
                  sample_bad_world eq_refl
                  ltac:(reflexivity)
                  ltac:(reflexivity)
                  ltac:(left; reflexivity))).
Defined.

(** The second of two measures was never loaded. *)
Lemma updater_update_raises_witness :
  ∃ done_ cls m m' rest,
    [(BaseCompetencyMeasure.class, Measure (Some sample_dto) "ann");
     (SuccessRateCompetencyMeasure.class, BaseCompetencyMeasure.__init__ "ann")]
    = done_ ++ (cls, m) :: rest
    ∧ update cls (PFloat 0.75) no_kwargs m = (m', Raise AssertionError)
    ∧ length done_ = 1.
Proof.
  destruct (updater_update_raises (PFloat 0.75)
              [(BaseCompetencyMeasure.class, Measure (Some sample_dto) "ann");
               (SuccessRateCompetencyMeasure.class,
                BaseCompetencyMeasure.__init__ "ann")]
              [(BaseCompetencyMeasure.class,
                Measure
                  (Some (CompetencyMeasureDto.__init__ "k"
                           (<["events" :=
                                PList [BaseCompetencyMeasure.event_record
                                         (PFloat 0.75) no_kwargs]]> ∅)))
                  "ann");
               (SuccessRateCompetencyMeasure.class,
                BaseCompetencyMeasure.__init__ "ann")]
              AssertionError)
    as (done_ & cls & m & m' & rest & Heq & Hup & done' & Heq' & Hdone).
  - reflexivity.
  - exists done_, cls, m, m', rest. split; [exact Heq|]. split; [exact Hup|].
    destruct done_ as [|x [|y done_]]; simpl in Heq.
    + simplify_eq; try discriminate Hup.
    + reflexivity.
    + simplify_eq; try (destruct done_; discriminate).
Defined.


Lemma check_answer_records_one_observation_witness :
  ∃ doc,
    record_event_listener "tag-assessment" {| User_user_id := "ann" |}
      (sample_item_text "q1" "0.75") sample_world
    = (World {["ann:7:SuccessRateCompetencyMeasure" := doc]}
         (registry sample_world)
         [QuestionLoad (PStr "q1");
          DaoLoad "ann:7:SuccessRateCompetencyMeasure";
          DaoSave "ann:7:SuccessRateCompetencyMeasure"],
       Ok tt)
    ∧ success_rate_state doc
      = Some ([BaseCompetencyMeasure.event_record (PFloat 0.75) no_kwargs],
              1%Z, 1%Z).
Proof.
  destruct (check_answer_records_one_observation {| User_user_id := "ann" |}
              (sample_item_text "q1" "0.75") (sample_item "q1" (PFloat 0.75))
              (PStr "SaQuestion") (PStr "q1") (PFloat 0.75) (PInt 7)
              {| question_dict := {["skills" := PList [PInt 7]]} |}
              "ann:7:SuccessRateCompetencyMeasure" sample_world [] 0%Z 0%Z)
    as (doc & Hrun & Hst); try reflexivity; try discriminate.
  exists doc. split; [exact Hrun|]. rewrite Hst. reflexivity.
Defined.
